(** * Poll and vote domain of the ALX Polly / New-poll applications

    A shallow embedding of the server actions of the repository
    (createPoll, getPollById, submitVote, deletePoll, updatePoll, the two
    createPoll variants of the New-poll scaffolding, and the tally rendering
    of the results page), with the Supabase client modelled as an explicit
    store that is threaded through every action together with the log of
    the requests the action issued. *)

From Stdlib Require Import ZArith Bool Ascii String DecimalString List Lia.
From Stdlib Require Import PrimFloat SpecFloat FloatOps.
From Stdlib Require Import Sorted Permutation.
From stdpp Require Import base option list strings gmap fin_maps.

Open Scope string_scope.

(** ** JavaScript primitives used by the actions *)

Module JS.

(** Code units that [String.prototype.trim] strips, restricted to the
    ASCII range of the strings modelled here: TAB, LF, VT, FF, CR, SP. *)
Definition isWhiteSpace (a : ascii) : bool :=
  let n := nat_of_ascii a in
  Nat.eqb n 9 || Nat.eqb n 10 || Nat.eqb n 11 || Nat.eqb n 12
  || Nat.eqb n 13 || Nat.eqb n 32.

Fixpoint trimStart (s : string) : string :=
  match s with
  | EmptyString => EmptyString
  | String a rest => if isWhiteSpace a then trimStart rest else s
  end.

Fixpoint trimEnd (s : string) : string :=
  match s with
  | EmptyString => EmptyString
  | String a rest =>
      match trimEnd rest with
      | EmptyString => if isWhiteSpace a then EmptyString
                       else String a EmptyString
      | kept => String a kept
      end
  end.

(** [s.trim()] *)
Definition trim (s : string) : string := trimEnd (trimStart s).

(** Truthiness of a string: only the empty string is falsy. *)
Definition truthy (s : string) : bool :=
  match s with EmptyString => false | String _ _ => true end.

(** Whether every code unit of the string is below 128.  On such strings
    the functions of this development are the functions of JavaScript:
    [trim] strips TAB, LF, VT, FF, CR and SP, the class [\s] of a pattern
    holds the same six, [toLowerCase] changes the letters A to Z, and
    [length] counts the characters.  Outside the ASCII range JavaScript
    knows further white space (U+00A0, U+2028, U+FEFF, ...) and further
    cased letters.  A property that is exact only on ASCII strings says so
    with [isASCII] as a hypothesis. *)
Fixpoint isASCII (s : string) : bool :=
  match s with
  | EmptyString => true
  | String a rest => Nat.ltb (nat_of_ascii a) 128 && isASCII rest
  end.

(** An integer-valued JS number literal as an IEEE binary64 value. *)
Definition Number (z : Z) : float :=
  SF2Prim (binary_normalize prec emax z 0 false).

(** [Math.round]: the integer closest to the argument, ties towards
    +infinity, computed exactly from the mantissa and exponent of the
    double.  NaN and the infinities have no integer value. *)
Definition Math_round (x : float) : option Z :=
  match Prim2SF x with
  | S754_zero _ => Some 0%Z
  | S754_finite sign m e =>
      let n := if sign then Z.neg m else Z.pos m in
      Some match e with
           | Z0 => n
           | Zpos _ => (n * 2 ^ e)%Z
           | Zneg k => ((2 * n + 2 ^ Z.pos k) / 2 ^ (Z.pos k + 1))%Z
           end
  | S754_infinity _ | S754_nan => None
  end.

End JS.

(** ** The state monad of the server actions

    Every action awaits its collaborators one after the other; it is a
    function from the world before the call to its result and the world
    after it. *)

Definition State (S A : Type) : Type := S -> A * S.

Definition ret {S A : Type} (a : A) : State S A := fun s => (a, s).

Definition bind {S A B : Type} (m : State S A) (k : A -> State S B)
  : State S B :=
  fun s => let (a, s') := m s in k a s'.

Notation "'do' x <- m ; k" := (bind m (fun x => k))
  (at level 10, x name, m at level 100, k at level 200).

(** ** The identity provider ([supabase.auth.getUser()]) *)

Module Supabase.

Record User := { id : string; email : string }.

(** The answer of [getUser]: [data.user] and [error?.message]. *)
Record AuthResponse := { user : option User; userError : option string }.

Definition signedIn (u : User) : AuthResponse :=
  {| user := Some u; userError := None |}.

Definition anonymous : AuthResponse := {| user := None; userError := None |}.

End Supabase.

(** ** The poll actions of the application (part_000)

    [createPoll], [getPollById], [submitVote], [deletePoll] and
    [updatePoll], over the tables [polls] and [votes] of the schema the
    README gives: [polls.id] is the primary key, [votes.poll_id] references
    [polls(id)] with ON DELETE CASCADE, and neither table has any other
    uniqueness constraint.  The row level security policies of the README
    restrict update and delete to the rows of the signed-in user, which the
    filters of the actions already do; they are not modelled apart.
    [getUserPolls] is used by no property below and is left out. *)

Module PollActions.

Import Supabase.

(** A [FormData] entry value is a string or a [File]. *)
Inductive FormDataEntryValue :=
| Text (s : string)
| File (name : string).

Definition FormData := list (string * FormDataEntryValue).

Definition entries (name : string) (formData : FormData)
  : list FormDataEntryValue :=
  map snd (List.filter (fun e => String.eqb (fst e) name) formData).

(** [formData.get(name)]: the first value of that name, or null. *)
Definition get (name : string) (formData : FormData)
  : option FormDataEntryValue :=
  head (entries name formData).

(** [formData.getAll(name)] *)
Definition getAll (name : string) (formData : FormData)
  : list FormDataEntryValue :=
  entries name formData.

(** [Boolean(v)]: a [File] is an object, hence truthy. *)
Definition truthy (v : FormDataEntryValue) : bool :=
  match v with
  | Text s => JS.truthy s
  | File _ => true
  end.

(** [PollSettings] and the [endDate] of the [Poll] interface
    (app/lib/types/index.ts).  No action reads or writes them; a row keeps
    whatever the table holds. *)
Record PollSettings :=
  { allowMultipleVotes : bool; requireAuthentication : bool }.

(** A row of [polls], without its key [id] (the key of the table below). *)
Record PollRow := {
  user_id : string;
  question : string;
  options : list string;
  endDate : option Z;
  settings : option PollSettings
}.

(** A row of [votes]. *)
Record VoteRow := {
  poll_id : string;
  vote_user_id : option string;
  option_index : Z
}.

(** The [.eq(column, value)] filters the actions use on [polls]. *)
Inductive Filter :=
| EqId (value : string)
| EqUserId (value : string).

(** What an action sends to its collaborators. *)
Inductive Request :=
| AuthGetUser
| InsertPoll (uid question : string) (options : list string)
| SelectPollSingle (filters : list Filter)
| InsertVote (row : VoteRow)
| DeletePolls (filters : list Filter)
| UpdatePolls (question : FormDataEntryValue)
              (options : list FormDataEntryValue) (filters : list Filter)
| RevalidatePath (path : string).

Record World := {
  session : AuthResponse;            (* what getUser answers *)
  polls : gmap string PollRow;       (* table polls, by primary key *)
  votes : list VoteRow;              (* table votes *)
  uuids : nat -> string;             (* gen_random_uuid(), call by call *)
  issued : nat;                      (* how many ids were drawn *)
  fault : Request -> option string;  (* the error the gateway answers with *)
  log : list Request                 (* requests sent so far *)
}.

Definition logged (r : Request) (w : World) : World :=
  {| session := session w; polls := polls w; votes := votes w;
     uuids := uuids w; issued := issued w; fault := fault w;
     log := log w ++ [r] |}.

Definition withTables (p : gmap string PollRow) (v : list VoteRow)
  (n : nat) (w : World) : World :=
  {| session := session w; polls := p; votes := v;
     uuids := uuids w; issued := n; fault := fault w; log := log w |}.

Definition matches (filters : list Filter) (id : string) (row : PollRow)
  : bool :=
  forallb (fun f => match f with
                    | EqId v => String.eqb id v
                    | EqUserId v => String.eqb (user_id row) v
                    end) filters.

(** No row of the table has both the id and the owner that the filters
    [EqId id; EqUserId uid] ask for. *)
Definition selectsNothing (id uid : string) (table : gmap string PollRow)
  : Prop :=
  forall row, table !! id = Some row -> user_id row <> uid.

Definition duplicate_key : string :=
  "duplicate key value violates unique constraint".
Definition foreign_key : string :=
  "insert or update on table violates foreign key constraint".
Definition no_single_row : string :=
  "JSON object requested, multiple (or no) rows returned".

(** [supabase.auth.getUser()] *)
Definition getUser : State World AuthResponse :=
  fun w => (session w, logged AuthGetUser w).

(** [revalidatePath(path)] *)
Definition revalidatePath (path : string) : State World unit :=
  fun w => (tt, logged (RevalidatePath path) w).

(** [from("polls").insert([{user_id, question, options}])]; the id is the
    column default. *)
Definition insertPoll (uid q : string) (opts : list string)
  : State World (option string) :=
  fun w =>
    let w1 := logged (InsertPoll uid q opts) w in
    match fault w (InsertPoll uid q opts) with
    | Some e => (Some e, w1)
    | None =>
        let id := uuids w (issued w) in
        match polls w !! id with
        | Some _ => (Some duplicate_key, w1)
        | None =>
            (None,
             withTables
               (<[id := {| user_id := uid; question := q; options := opts;
                           endDate := None; settings := None |}]> (polls w))
               (votes w) (S (issued w)) w1)
        end
    end.

(** [from("polls").select("*").eq("id", id).single()] *)
Definition selectPollSingle (id : string)
  : State World (option (string * PollRow) * option string) :=
  fun w =>
    let w1 := logged (SelectPollSingle [EqId id]) w in
    match fault w (SelectPollSingle [EqId id]) with
    | Some e => ((None, Some e), w1)
    | None =>
        match polls w !! id with
        | Some row => ((Some (id, row), None), w1)
        | None => ((None, Some no_single_row), w1)
        end
    end.

(** [from("votes").insert([row])] *)
Definition insertVote (row : VoteRow) : State World (option string) :=
  fun w =>
    let w1 := logged (InsertVote row) w in
    match fault w (InsertVote row) with
    | Some e => (Some e, w1)
    | None =>
        match polls w !! poll_id row with
        | None => (Some foreign_key, w1)
        | Some _ =>
            (None, withTables (polls w) (votes w ++ [row]) (issued w) w1)
        end
    end.

(** [from("polls").delete().eq(...)...]: one statement that removes the
    rows all filters select, and with them their votes. *)
Definition deletePolls (filters : list Filter) : State World (option string) :=
  fun w =>
    let w1 := logged (DeletePolls filters) w in
    match fault w (DeletePolls filters) with
    | Some e => (Some e, w1)
    | None =>
        let removed :=
          filter (fun kv => matches filters kv.1 kv.2 = true) (polls w) in
        let kept :=
          filter (fun kv => matches filters kv.1 kv.2 = false) (polls w) in
        (None,
         withTables kept
           (List.filter (fun v => bool_decide (removed !! poll_id v = None))
                        (votes w))
           (issued w) w1)
    end.

(** The text a payload value is stored as: a [File] has no enumerable
    property, so it is serialised as an empty JSON object. *)
Definition stored (v : FormDataEntryValue) : string :=
  match v with
  | Text s => s
  | File _ => "{}"
  end.

(** [from("polls").update({question, options}).eq(...)...] *)
Definition updatePolls (q : FormDataEntryValue)
  (opts : list FormDataEntryValue) (filters : list Filter)
  : State World (option string) :=
  fun w =>
    let w1 := logged (UpdatePolls q opts filters) w in
    match fault w (UpdatePolls q opts filters) with
    | Some e => (Some e, w1)
    | None =>
        (None,
         withTables
           (map_imap
              (fun id row =>
                 Some (if matches filters id row
                       then {| user_id := user_id row; question := stored q;
                               options := map stored opts;
                               endDate := endDate row;
                               settings := settings row |}
                       else row))
              (polls w))
           (votes w) (issued w) w1)
    end.

(** The result objects. *)
Record ActionResult := { error : option string }.
Record PollResult :=
  { poll : option (string * PollRow); pollError : option string }.

Definition ok : ActionResult := {| error := None |}.
Definition failed (message : string) : ActionResult :=
  {| error := Some message |}.

(** Lines 40 and 52-55 of [createPoll]: the options that are left after
    [filter(Boolean)], trimming (a [File] counts as empty) and a second
    [filter(Boolean)]. *)
Definition sanitizedOptions (formData : FormData) : list string :=
  let options := List.filter truthy (getAll "options" formData) in
  List.filter JS.truthy
    (map (fun opt => match opt with
                     | Text s => JS.trim s
                     | File _ => ""
                     end) options).

(** Lines 39-59 of [createPoll]: the type check and the sanitisation of
    the form, with the error the action returns when one of them fails. *)
Definition sanitize (formData : FormData) : string + string * list string :=
  let question := get "question" formData in
  match question with
  | Some (Text question) =>
      let sanitizedQuestion := JS.trim question in
      if negb (JS.truthy sanitizedQuestion)
         || Nat.ltb (length (sanitizedOptions formData)) 2
      then inl "Please provide a question and at least two options."
      else inr (sanitizedQuestion, sanitizedOptions formData)
  | Some (File _) | None => inl "Invalid form data."
  end.

(** Whether every text of the form is an ASCII string (see
    [JS.isASCII]); a [File] holds no text that the actions read. *)
Definition asciiForm (formData : FormData) : bool :=
  forallb (fun entry => match snd entry with
                        | Text s => JS.isASCII s
                        | File _ => true
                        end) formData.

Definition createPoll (formData : FormData) : State World ActionResult :=
  match sanitize formData with
  | inl message => ret (failed message)
  | inr (sanitizedQuestion, sanitizedOptions) =>
      do auth <- getUser ;
      match userError auth with
      | Some message => ret (failed message)
      | None =>
          match user auth with
          | None => ret (failed "You must be logged in to create a poll.")
          | Some user =>
              do error <- insertPoll (id user) sanitizedQuestion
                                  sanitizedOptions ;
              match error with
              | Some message => ret (failed message)
              | None => do _ <- revalidatePath "/polls" ; ret ok
              end
          end
      end
  end.

Definition getPollById (id : string) : State World PollResult :=
  do answer <- selectPollSingle id ;
  match snd answer with
  | Some message => ret {| poll := None; pollError := Some message |}
  | None => ret {| poll := fst answer; pollError := None |}
  end.

Definition submitVote (pollId : string) (optionIndex : Z)
  : State World ActionResult :=
  do auth <- getUser ;
  do error <- insertVote {| poll_id := pollId;
                            vote_user_id := option_map id (user auth);
                            option_index := optionIndex |} ;
  match error with
  | Some message => ret (failed message)
  | None => ret ok
  end.

Definition deletePoll (id : string) : State World ActionResult :=
  do auth <- getUser ;
  match userError auth, user auth with
  | None, Some user =>
      do error <- deletePolls [EqId id; EqUserId (Supabase.id user)] ;
      match error with
      | Some message => ret (failed message)
      | None => do _ <- revalidatePath "/polls" ; ret ok
      end
  | _, _ => ret (failed "You must be logged in to delete a poll.")
  end.

(** The check of [updatePoll] on its form: [!question || options.length < 2]
    rejects; otherwise the question and the options go into the update as
    they are. *)
Definition updateForm (formData : FormData)
  : option (FormDataEntryValue * list FormDataEntryValue) :=
  let question := get "question" formData in
  let options := List.filter truthy (getAll "options" formData) in
  match question with
  | Some question =>
      if negb (truthy question) || Nat.ltb (length options) 2
      then None
      else Some (question, options)
  | None => None
  end.

Definition updatePoll (pollId : string) (formData : FormData)
  : State World ActionResult :=
  match updateForm formData with
  | None =>
      ret (failed "Please provide a question and at least two options.")
  | Some (question, options) =>
      do auth <- getUser ;
      match userError auth with
      | Some message => ret (failed message)
      | None =>
          match user auth with
          | None => ret (failed "You must be logged in to update a poll.")
          | Some user =>
              do error <- updatePolls question options
                                      [EqId pollId; EqUserId (id user)] ;
              match error with
              | Some message => ret (failed message)
              | None => ret ok
              end
          end
      end
  end.

End PollActions.

(** ** The store of the New-poll application

    Both [createPoll] variants of the scaffolding write to [polls] and
    [poll_options]; [poll_options.poll_id] references [polls].  The gateway
    reports a failure through the [error] field of its answer, as the
    Supabase client does; the [console.error] calls and the catch-all of
    the [try] block, which only a throwing collaborator reaches, are left
    out. *)

Module NewPollStore.

Import Supabase.

Record CreatePollFormData := {
  title : string;
  description : option string;
  options : list string;
  isPublic : bool;
  allowMultipleVotes : bool;
  allowAnonymousVotes : bool
}.

Record CreatePollResult := {
  success : bool;
  pollId : option string;
  error : option string
}.

Definition failure (message : string) : CreatePollResult :=
  {| success := false; pollId := None; error := Some message |}.

(** The record both variants send as the new poll ([settings: {}] apart). *)
Record PollRow := {
  poll_title : string;
  poll_description : option string;
  creator_id : string;
  is_public : bool;
  allow_multiple_votes : bool;
  allow_anonymous_votes : bool
}.

Record OptionRow := { poll_id : string; text : string; order_index : nat }.

Inductive Request :=
| AuthGetUser
| InsertPoll (row : PollRow)
| InsertOptions (rows : list OptionRow)
| CreatePollWithOptions (row : PollRow) (options : list string)
| RevalidatePath (path : string).

Record World := {
  session : AuthResponse;
  polls : gmap string PollRow;
  poll_options : list OptionRow;
  uuids : nat -> string;
  issued : nat;
  fault : Request -> option string;
  log : list Request
}.

Definition logged (r : Request) (w : World) : World :=
  {| session := session w; polls := polls w;
     poll_options := poll_options w; uuids := uuids w; issued := issued w;
     fault := fault w; log := log w ++ [r] |}.

Definition withTables (p : gmap string PollRow) (o : list OptionRow)
  (n : nat) (w : World) : World :=
  {| session := session w; polls := p; poll_options := o;
     uuids := uuids w; issued := n; fault := fault w; log := log w |}.

Definition withSession (a : AuthResponse) (w : World) : World :=
  {| session := a; polls := polls w; poll_options := poll_options w;
     uuids := uuids w; issued := issued w; fault := fault w; log := log w |}.

Definition duplicate_key : string :=
  "duplicate key value violates unique constraint".
Definition foreign_key : string :=
  "insert or update on table violates foreign key constraint".

(** [getCurrentUser()] of lib/supabase/auth.ts: null on an error or when
    nobody is signed in. *)
Definition getCurrentUser : State World (option User) :=
  fun w =>
    (match userError (session w), user (session w) with
     | None, Some u => Some u
     | _, _ => None
     end,
     logged AuthGetUser w).

Definition revalidatePath (path : string) : State World unit :=
  fun w => (tt, logged (RevalidatePath path) w).

(** [from('polls').insert(row).select().single()]: the stored row's id, or
    an error. *)
Definition insertPoll (row : PollRow)
  : State World (option string * option string) :=
  fun w =>
    let w1 := logged (InsertPoll row) w in
    match fault w (InsertPoll row) with
    | Some e => ((None, Some e), w1)
    | None =>
        let id := uuids w (issued w) in
        match polls w !! id with
        | Some _ => ((None, Some duplicate_key), w1)
        | None =>
            ((Some id, None),
             withTables (<[id := row]> (polls w)) (poll_options w)
                        (S (issued w)) w1)
        end
    end.

(** [from('poll_options').insert(rows)]: one statement, all rows or none. *)
Definition insertOptions (rows : list OptionRow)
  : State World (option string) :=
  fun w =>
    let w1 := logged (InsertOptions rows) w in
    match fault w (InsertOptions rows) with
    | Some e => (Some e, w1)
    | None =>
        if forallb (fun r => bool_decide (is_Some (polls w !! poll_id r))) rows
        then (None,
              withTables (polls w) (poll_options w ++ rows) (issued w) w1)
        else (Some foreign_key, w1)
    end.

Definition optionRows (id : string) (texts : list string) : list OptionRow :=
  imap (fun index text =>
          {| poll_id := id; text := text; order_index := index |}) texts.

(** Modelled from the spec: the database function behind
    [rpc('create_poll_with_options', ...)], whose body is not part of the
    sources.  It "persists one Poll row and N PollOption rows ... in a
    single logical transaction" and answers with the new poll's id.  The
    spec does not fix the columns of the option rows; they are taken to
    be those the two-step variant of projects/alx-polly writes, and no
    property below depends on them. *)
Definition createPollWithOptions (row : PollRow) (texts : list string)
  : State World (option string * option string) :=
  fun w =>
    let w1 := logged (CreatePollWithOptions row texts) w in
    match fault w (CreatePollWithOptions row texts) with
    | Some e => ((None, Some e), w1)
    | None =>
        let id := uuids w (issued w) in
        match polls w !! id with
        | Some _ => ((None, Some duplicate_key), w1)
        | None =>
            ((Some id, None),
             withTables (<[id := row]> (polls w))
                        (poll_options w ++ optionRows id texts)
                        (S (issued w)) w1)
        end
    end.

(** [formData.description?.trim() || null] *)
Definition descriptionOrNull (formData : CreatePollFormData)
  : option string :=
  match description formData with
  | Some d => if JS.truthy (JS.trim d) then Some (JS.trim d) else None
  | None => None
  end.

Definition newPollRow (creator : string) (formData : CreatePollFormData)
  : PollRow :=
  {| poll_title := JS.trim (title formData);
     poll_description := descriptionOrNull formData;
     creator_id := creator;
     is_public := isPublic formData;
     allow_multiple_votes := allowMultipleVotes formData;
     allow_anonymous_votes := allowAnonymousVotes formData |}.

(** Whether the title, the description and the options are ASCII strings
    (see [JS.isASCII]). *)
Definition asciiData (formData : CreatePollFormData) : bool :=
  JS.isASCII (title formData)
  && match description formData with
     | Some d => JS.isASCII d
     | None => true
     end
  && forallb JS.isASCII (options formData).

End NewPollStore.

(** ** [createPoll] of projects/alx-polly (part_008): a poll insert followed
    by an options insert, on behalf of a mock user *)

Module ProjectPolly.

Import NewPollStore.

Definition createPoll (formData : CreatePollFormData)
  : State World CreatePollResult :=
  if negb (JS.truthy (JS.trim (title formData)))
  then ret (failure "Title is required")
  else if Nat.ltb (length (options formData)) 2
  then ret (failure "At least 2 options are required")
  else if Nat.ltb 10 (length (options formData))
  then ret (failure "Maximum 10 options allowed")
  else
    let validOptions :=
      List.filter (fun option => JS.truthy (JS.trim option))
                  (options formData) in
    if Nat.ltb (length validOptions) 2
    then ret (failure "All options must have text")
    else
      let mockUser := "mock-user-id" in
      do answer <- insertPoll (newPollRow mockUser formData) ;
      match snd answer with
      | Some _ => ret (failure "Failed to create poll")
      | None =>
          match fst answer with
          | None => ret (failure "Failed to create poll")
          | Some poll_id =>
              let optionsData :=
                optionRows poll_id (map JS.trim validOptions) in
              do optionsError <- insertOptions optionsData ;
              match optionsError with
              | Some _ => ret (failure "Failed to create poll options")
              | None =>
                  do _ <- revalidatePath "/polls" ;
                  ret {| success := true; pollId := Some poll_id;
                         error := None |}
              end
          end
      end.

End ProjectPolly.

(** ** [createPoll] of New-poll/src/lib/actions/polls.ts: one remote
    procedure call, on behalf of a demo user *)

Module NewPoll.

Import NewPollStore.

Definition createPoll (formData : CreatePollFormData)
  : State World CreatePollResult :=
  if negb (JS.truthy (JS.trim (title formData)))
  then ret (failure "Title is required")
  else
    let validOptions :=
      List.filter (fun option => JS.truthy (JS.trim option))
                  (options formData) in
    if Nat.ltb (length validOptions) 2
    then ret (failure "At least 2 options are required")
    else
      let user := "demo-user" in
      do answer <- createPollWithOptions (newPollRow user formData)
                                         (map JS.trim validOptions) ;
      match snd answer with
      | Some _ => ret (failure "Failed to create poll")
      | None =>
          do _ <- revalidatePath "/polls" ;
          ret {| success := true; pollId := fst answer; error := None |}
      end.

End NewPoll.

(** ** Vocabulary of the specification

    The specification speaks of error kinds, of closed polls and of a
    tally; the actions return messages, never look at [endDate], and count
    nothing.  These definitions state the specification's notions over the
    data of the actions. *)

Module Spec.

Inductive ErrorKind :=
| Unauthorized
| Forbidden
| ValidationError
| NotFound
| Conflict
| StoreError.

Definition loginMessages : list string :=
  [ "You must be logged in to create a poll.";
    "You must be logged in to delete a poll.";
    "You must be logged in to update a poll." ].

Definition validationMessages : list string :=
  [ "Invalid form data.";
    "Please provide a question and at least two options.";
    "Title is required";
    "At least 2 options are required";
    "Maximum 10 options allowed";
    "All options must have text" ].

(** Modelled from the spec: the taxonomy of its section 7, read over the
    messages of the actions.  A message that an action passes on from a
    collaborator is a StoreError. *)
Definition kindOf (message : string) : ErrorKind :=
  if existsb (String.eqb message) loginMessages then Unauthorized
  else if existsb (String.eqb message) validationMessages then ValidationError
  else StoreError.

(** The kind of error a result carries; [None] is success. *)
Definition outcome (error : option string) : option ErrorKind :=
  option_map kindOf error.

(** Modelled from the spec: "a poll is CLOSED whenever endDate is set and
    now >= endDate". *)
Definition closed (now : Z) (endDate : option Z) : bool :=
  match endDate with
  | Some t => (t <=? now)%Z
  | None => false
  end.

(** The Vote rows of one user on one poll. *)
Definition votesOf (pollId userId : string) (votes : list PollActions.VoteRow)
  : list PollActions.VoteRow :=
  List.filter
    (fun v => String.eqb (PollActions.poll_id v) pollId
              && bool_decide (PollActions.vote_user_id v = Some userId))
    votes.

(** Modelled from the spec: getTally, "computed by grouping all Vote rows
    for pollId by optionIndex and counting", enumerating the options of the
    poll. *)
Definition getTally (pollId : string) (w : PollActions.World)
  : list (nat * nat) :=
  match PollActions.polls w !! pollId with
  | None => []
  | Some p =>
      map (fun index =>
             (index,
              length
                (List.filter
                   (fun v =>
                      String.eqb (PollActions.poll_id v) pollId
                      && (PollActions.option_index v =? Z.of_nat index)%Z)
                   (PollActions.votes w))))
          (seq 0 (length (PollActions.options p)))
  end.

Definition totalVotes (tally : list (nat * nat)) : nat :=
  fold_right (fun entry sum => snd entry + sum) 0 tally.

End Spec.

(** ** The results page (part_004, [ResultsPage])

    The page takes the poll id of its route and the [vote] parameter of
    the query.  It reads neither the poll nor the votes: the options and
    the counts it renders are the constants [mockPoll] and [mockResults]
    of its body. *)

Module Results.

(** What reading a property of an object gives: a number the object holds
    under that name, a member it inherits from [Object.prototype] (a
    function, or the prototype itself under [__proto__]), or
    [undefined]. *)
Inductive Value :=
| Num (x : float)
| Inherited
| Undefined.

(** [mockPoll.question] and [mockPoll.options] *)
Definition mockPoll_question : string :=
  "What's your favorite programming language?".

Definition mockPoll_options : list string :=
  ["JavaScript"; "Python"; "TypeScript"; "Java"; "Go"].

(** [mockResults]: its own properties, in the order they are written. *)
Definition mockResults : list (string * float) :=
  [ ("JavaScript", JS.Number 45); ("Python", JS.Number 32);
    ("TypeScript", JS.Number 28); ("Java", JS.Number 15);
    ("Go", JS.Number 12) ].

(** The names every object literal inherits from [Object.prototype]. *)
Definition objectPrototype : list string :=
  [ "constructor"; "hasOwnProperty"; "isPrototypeOf";
    "propertyIsEnumerable"; "toLocaleString"; "toString"; "valueOf";
    "__proto__"; "__defineGetter__"; "__defineSetter__";
    "__lookupGetter__"; "__lookupSetter__" ].

(** [object[key]] *)
Definition get (object : list (string * float)) (key : string) : Value :=
  match find (fun property => String.eqb (fst property) key) object with
  | Some property => Num (snd property)
  | None =>
      if existsb (String.eqb key) objectPrototype then Inherited
      else Undefined
  end.

(** [value || 0]: 0, -0, NaN and [undefined] are falsy. *)
Definition orZero (value : Value) : Value :=
  match value with
  | Num x =>
      if PrimFloat.eqb x (JS.Number 0) || negb (PrimFloat.eqb x x)
      then Num (JS.Number 0)
      else Num x
  | Inherited => Inherited
  | Undefined => Num (JS.Number 0)
  end.

(** The number a value stands for in arithmetic: a function or an object
    gives NaN. *)
Definition toNumber (value : Value) : float :=
  match value with
  | Num x => x
  | Inherited | Undefined => PrimFloat.nan
  end.

(** [Object.values(mockResults).reduce((sum, votes) => sum + votes, 0)] *)
Definition totalVotes : float :=
  fold_left (fun sum votes => PrimFloat.add sum votes)
            (map snd mockResults) (JS.Number 0).

(** [totalVotes > 0 ? Math.round((votes / totalVotes) * 100) : 0];
    [None] is NaN. *)
Definition percentage (votes : Value) (totalVotes : float) : option Z :=
  if PrimFloat.ltb (JS.Number 0) totalVotes
  then JS.Math_round
         (PrimFloat.mul (PrimFloat.div (toNumber votes) totalVotes)
                        (JS.Number 100))
  else Some 0%Z.

(** A row of the list: the option, whether it carries the check mark
    ([option === userVote]), the count and the percentage. *)
Record Row := {
  option_text : string;
  chosen : bool;
  votes : Value;
  percent : option Z
}.

(** The body of [mockPoll.options.map((option) => ...)]. *)
Definition row (userVote : option string) (option : string) : Row :=
  let votes := orZero (get mockResults option) in
  {| option_text := option;
     chosen := match userVote with
               | Some vote => String.eqb option vote
               | None => false
               end;
     votes := votes;
     percent := percentage votes totalVotes |}.

Record Page := {
  recorded : option string;     (* the vote named under the heading *)
  question : string;
  rows : list Row;
  total : float;                (* "Total votes: ..." *)
  voteAgain : string            (* the target of "Vote again" *)
}.

(** [ResultsPage({ params })], with [userVote = searchParams.get('vote')]. *)
Definition ResultsPage (id : string) (userVote : option string) : Page :=
  {| recorded := match userVote with
                 | Some vote => if JS.truthy vote then Some vote else None
                 | None => None
                 end;
     question := mockPoll_question;
     rows := map (row userVote) mockPoll_options;
     total := totalVotes;
     voteAgain := "/polls/" ++ id |}.

(** Modelled from the spec: "percentage(option) = round(100 * count /
    totalVotes), with totalVotes == 0 yielding 0%", the quotient taken
    exactly and a tie rounded as [Math.round] rounds it. *)
Definition spec_percentage (count total : Z) : Z :=
  if (total =? 0)%Z then 0%Z
  else ((2 * (100 * count) + total) / (2 * total))%Z.

End Results.

(** ** Sample data *)

Module Samples.

Import Supabase.

Definition alice : User := {| id := "alice-id"; email := "alice@example.com" |}.
Definition bob : User := {| id := "bob-id"; email := "bob@example.com" |}.

Definition uuid (n : nat) : string :=
  "poll-" ++ NilZero.string_of_uint (Nat.to_uint n).

(** A poll of Alice that ended at time 100, one vote per user, sign-in
    required. *)
Definition pollOfAlice : PollActions.PollRow :=
  {| PollActions.user_id := "alice-id";
     PollActions.question := "Tabs or spaces?";
     PollActions.options := ["Tabs"; "Spaces"];
     PollActions.endDate := Some 100%Z;
     PollActions.settings :=
       Some {| PollActions.allowMultipleVotes := false;
               PollActions.requireAuthentication := true |} |}.

(** The application with that one poll stored under "p1", no vote yet, and
    a gateway that accepts every request. *)
Definition world (who : AuthResponse) : PollActions.World :=
  {| PollActions.session := who;
     PollActions.polls := {[ "p1" := pollOfAlice ]};
     PollActions.votes := [];
     PollActions.uuids := uuid;
     PollActions.issued := 0;
     PollActions.fault := fun _ => None;
     PollActions.log := [] |}.

(** The same poll without an end date, and the application holding it. *)
Definition openPoll : PollActions.PollRow :=
  {| PollActions.user_id := "alice-id";
     PollActions.question := "Tabs or spaces?";
     PollActions.options := ["Tabs"; "Spaces"];
     PollActions.endDate := None;
     PollActions.settings := PollActions.settings pollOfAlice |}.

Definition openWorld (who : AuthResponse) : PollActions.World :=
  {| PollActions.session := who;
     PollActions.polls := {[ "p1" := openPoll ]};
     PollActions.votes := [];
     PollActions.uuids := uuid;
     PollActions.issued := 0;
     PollActions.fault := fun _ => None;
     PollActions.log := [] |}.

Definition form (question : string) (options : list string)
  : PollActions.FormData :=
  ("question", PollActions.Text question)
  :: map (fun o => ("options", PollActions.Text o)) options.

Definition pollData (title : string) (options : list string)
  : NewPollStore.CreatePollFormData :=
  {| NewPollStore.title := title;
     NewPollStore.description := Some "Test Description";
     NewPollStore.options := options;
     NewPollStore.isPublic := true;
     NewPollStore.allowMultipleVotes := false;
     NewPollStore.allowAnonymousVotes := true |}.

(** The empty New-poll store; the gateway answers the requests that
    [failing] selects with an error. *)
Definition emptyStore (who : AuthResponse)
  (failing : NewPollStore.Request -> bool) : NewPollStore.World :=
  {| NewPollStore.session := who;
     NewPollStore.polls := ∅;
     NewPollStore.poll_options := [];
     NewPollStore.uuids := uuid;
     NewPollStore.issued := 0;
     NewPollStore.fault :=
       fun r => if failing r then Some "connection lost" else None;
     NewPollStore.log := [] |}.

(** "Option 1", ..., "Option n" *)
Definition numbered (n : nat) : list string :=
  map (fun i => "Option " ++ NilZero.string_of_uint (Nat.to_uint i))
      (seq 1 n).

Definition optionsInsert (r : NewPollStore.Request) : bool :=
  match r with
  | NewPollStore.InsertOptions _ => true
  | _ => false
  end.

Definition nothing (r : NewPollStore.Request) : bool := false.

End Samples.

(** ** Regular expressions

    The pattern language the authentication actions need: character
    classes, sequence, alternative and repetition, matched against the
    whole string as [/^...$/.test(s)] does, by derivatives. *)

Module RegExp.

Inductive RegExp :=
| Never
| Empty
| Class (accepts : ascii -> bool)
| Seq (r1 r2 : RegExp)
| Alt (r1 r2 : RegExp)
| Star (r : RegExp).

(** [r+] *)
Definition Plus (r : RegExp) : RegExp := Seq r (Star r).

Fixpoint nullable (r : RegExp) : bool :=
  match r with
  | Never => false
  | Empty => true
  | Class _ => false
  | Seq r1 r2 => nullable r1 && nullable r2
  | Alt r1 r2 => nullable r1 || nullable r2
  | Star _ => true
  end.

Fixpoint derive (a : ascii) (r : RegExp) : RegExp :=
  match r with
  | Never => Never
  | Empty => Never
  | Class accepts => if accepts a then Empty else Never
  | Seq r1 r2 =>
      if nullable r1
      then Alt (Seq (derive a r1) r2) (derive a r2)
      else Seq (derive a r1) r2
  | Alt r1 r2 => Alt (derive a r1) (derive a r2)
  | Star r1 => Seq (derive a r1) (Star r1)
  end.

(** [/^r$/.test(s)] *)
Fixpoint test (r : RegExp) (s : string) : bool :=
  match s with
  | EmptyString => nullable r
  | String a rest => test (derive a r) rest
  end.

(** The strings a pattern denotes. *)
Inductive matches : RegExp -> string -> Prop :=
| matches_empty : matches Empty ""
| matches_class accepts a :
    accepts a = true -> matches (Class accepts) (String a "")
| matches_seq r1 r2 s1 s2 :
    matches r1 s1 -> matches r2 s2 -> matches (Seq r1 r2) (s1 ++ s2)
| matches_alt_l r1 r2 s : matches r1 s -> matches (Alt r1 r2) s
| matches_alt_r r1 r2 s : matches r2 s -> matches (Alt r1 r2) s
| matches_star_nil r : matches (Star r) ""
| matches_star_cons r s1 s2 :
    matches r s1 -> matches (Star r) s2 -> matches (Star r) (s1 ++ s2).

(** Every character of the string satisfies the predicate. *)
Fixpoint every (accepts : ascii -> bool) (s : string) : bool :=
  match s with
  | EmptyString => true
  | String a rest => accepts a && every accepts rest
  end.

End RegExp.

(** ** The authentication actions (part_001,
    app/lib/actions/auth-actions.ts): [login], [register], [logout] *)

Module AuthActions.

Import RegExp.

(** A field of the submitted data: a string, or a value of another type,
    of which only the truthiness matters. *)
Inductive Value :=
| Str (s : string)
| NotString (truthy : bool).

Definition truthy (v : Value) : bool :=
  match v with
  | Str s => JS.truthy s
  | NotString b => b
  end.

Record LoginFormData := { email : Value; password : Value }.

Record RegisterFormData := {
  name : Value;
  registerEmail : Value;       (* data.email *)
  registerPassword : Value     (* data.password *)
}.

(** What the actions ask of Supabase Auth. *)
Inductive Call :=
| SignInWithPassword (email password : string)
| SignUp (email password name : string)
| SignOut.

Record World := {
  answer : Call -> option string;   (* error?.message of the answer *)
  calls : list Call                 (* calls made so far *)
}.

Definition call (c : Call) : State World (option string) :=
  fun w => (answer w c, {| answer := answer w; calls := calls w ++ [c] |}).

Record Result := { error : option string }.

(** [[^\s@]] *)
Definition notSpaceOrAt (a : ascii) : bool :=
  negb (JS.isWhiteSpace a) && negb (Ascii.eqb a "@").

(** [/^[^\s@]+@[^\s@]+\.[^\s@]+$/] *)
Definition emailRegex : RegExp :=
  Seq (Plus (Class notSpaceOrAt))
      (Seq (Class (Ascii.eqb "@"))
           (Seq (Plus (Class notSpaceOrAt))
                (Seq (Class (Ascii.eqb "."))
                     (Plus (Class notSpaceOrAt))))).

(** A part of an address: not empty, and free of white space and "@". *)
Definition addressPart (s : string) : Prop :=
  s <> "" /\ every notSpaceOrAt s = true.

(** [toLowerCase] on the ASCII letters; the cased letters beyond the
    ASCII range are left as they are, so that [toLowerCase] below is
    [String.prototype.toLowerCase] on ASCII strings only. *)
Definition lowerChar (a : ascii) : ascii :=
  let n := nat_of_ascii a in
  if Nat.leb 65 n && Nat.leb n 90 then ascii_of_nat (n + 32) else a.

Fixpoint toLowerCase (s : string) : string :=
  match s with
  | EmptyString => EmptyString
  | String a rest => String (lowerChar a) (toLowerCase rest)
  end.

Definition login (data : LoginFormData) : State World Result :=
  if negb (truthy (email data)) || negb (truthy (password data))
  then ret {| error := Some "Email and password are required" |}
  else
    match email data, password data with
    | Str email, Str password =>
        if negb (test emailRegex email)
        then ret {| error := Some "Invalid email format" |}
        else
          do error <- call (SignInWithPassword
                              (toLowerCase (JS.trim email)) password) ;
          match error with
          | Some message => ret {| error := Some message |}
          | None => ret {| error := None |}
          end
    | _, _ => ret {| error := Some "Invalid input format" |}
    end.

(** [data.password.length] counts code units, which [String.length]
    does on an ASCII string. *)
Definition register (data : RegisterFormData) : State World Result :=
  if negb (truthy (registerEmail data))
     || negb (truthy (registerPassword data))
     || negb (truthy (name data))
  then ret {| error := Some "All fields are required" |}
  else
    match registerEmail data, registerPassword data, name data with
    | Str email, Str password, Str name =>
        if negb (test emailRegex email)
        then ret {| error := Some "Invalid email format" |}
        else if Nat.ltb (String.length password) 6
        then ret {| error := Some "Password must be at least 6 characters" |}
        else
          do error <- call (SignUp (toLowerCase (JS.trim email)) password
                                   (JS.trim name)) ;
          match error with
          | Some message => ret {| error := Some message |}
          | None => ret {| error := None |}
          end
    | _, _, _ => ret {| error := Some "Invalid input format" |}
    end.

(** Whether a submitted field is an ASCII string, or no string at all
    (see [JS.isASCII]). *)
Definition asciiValue (v : Value) : bool :=
  match v with
  | Str s => JS.isASCII s
  | NotString _ => true
  end.

Definition logout : State World Result :=
  do error <- call SignOut ;
  match error with
  | Some message => ret {| error := Some message |}
  | None => ret {| error := None |}
  end.

End AuthActions.

(** ** [getUserPolls] of the poll actions (part_000, lines 106-121)

    The query orders by [created_at], a column with a database default that
    no action writes; it is a parameter here, as is the error, if any, that
    the gateway answers the query with.  Rows of equal [created_at] come in
    an order the database does not fix; the model keeps one of them. *)

Module PollQueries.

Import Supabase PollActions.

Record UserPolls := {
  userPolls : list (string * PollRow);
  userPollsError : option string
}.

(** Insertion into a list that is ordered newest first. *)
Fixpoint insertNewest (created_at : string -> Z) (p : string * PollRow)
  (l : list (string * PollRow)) : list (string * PollRow) :=
  match l with
  | [] => [p]
  | q :: rest =>
      if (created_at q.1 <=? created_at p.1)%Z
      then p :: q :: rest
      else q :: insertNewest created_at p rest
  end.

(** [.order("created_at", { ascending: false })] *)
Definition newestFirst (created_at : string -> Z)
  (l : list (string * PollRow)) : list (string * PollRow) :=
  fold_right (insertNewest created_at) [] l.

(** [from("polls").select("*").eq("user_id", uid).order(...)] *)
Definition selectByOwner (created_at : string -> Z) (uid : string)
  (table : gmap string PollRow) : list (string * PollRow) :=
  newestFirst created_at
    (List.filter (fun p => String.eqb (user_id p.2) uid)
                 (map_to_list table)).

Definition getUserPolls (created_at : string -> Z) (failure : option string)
  : State World UserPolls :=
  do auth <- getUser ;
  match user auth with
  | None =>
      ret {| userPolls := []; userPollsError := Some "Not authenticated" |}
  | Some user =>
      fun w =>
        match failure with
        | Some message =>
            ({| userPolls := []; userPollsError := Some message |}, w)
        | None =>
            ({| userPolls :=
                  selectByOwner created_at (Supabase.id user) (polls w);
                userPollsError := None |}, w)
        end
  end.

(** What createPoll lets into the table: a question and at least two
    options, none of them empty, none with white space at either end. *)
Definition clean (text : string) : Prop :=
  text <> "" /\ JS.trim text = text.

Definition wellFormed (row : PollRow) : Prop :=
  clean (question row) /\
  2 <= length (options row) /\
  Forall clean (options row).

End PollQueries.

(** ** The poll form (part_003, [CreatePollForm])

    The handlers of the component over its state.  An event is handled
    after the render that follows the previous one, so each handler sees
    the current state.  [handleSubmit] calls the server action, which is a
    parameter: the component imports it by path. *)

Module PollForm.

Import NewPollStore.

Record FormState := {
  formTitle : string;
  formDescription : string;
  formOptions : list string;
  formError : option string;
  formSuccess : bool
}.

(** [useState('')], [useState(['', ''])], [useState(null)],
    [useState(false)] *)
Definition initial : FormState :=
  {| formTitle := ""; formDescription := ""; formOptions := [""; ""];
     formError := None; formSuccess := false |}.

Definition withOptions (options : list string) (s : FormState) : FormState :=
  {| formTitle := formTitle s; formDescription := formDescription s;
     formOptions := options; formError := formError s;
     formSuccess := formSuccess s |}.

(** [if (options.length < 10) setOptions(prev => [...prev, ''])] *)
Definition handleAddOption (options : list string) : list string :=
  if Nat.ltb (length options) 10 then options ++ [""] else options.

(** [if (options.length > 2) setOptions(prev => prev.filter((_, i) =>
    i !== index))]: the element at [index] goes, if there is one. *)
Definition handleRemoveOption (index : nat) (options : list string)
  : list string :=
  if Nat.ltb 2 (length options) then delete index options else options.

(** [newOptions[index] = value], for the index of a rendered input, which
    is below the length.  (Beyond the length JavaScript would extend the
    array; no rendered input has such an index, see [reachable].) *)
Definition handleOptionChange (index : nat) (value : string)
  (options : list string) : list string :=
  <[index := value]> options.

(** The option lists the component can hold: the initial one and those
    the handlers make of them, a change coming from a rendered input. *)
Inductive reachable : list string -> Prop :=
| reachable_initial : reachable [""; ""]
| reachable_add options :
    reachable options -> reachable (handleAddOption options)
| reachable_remove index options :
    reachable options -> reachable (handleRemoveOption index options)
| reachable_change index value options :
    reachable options -> index < length options ->
    reachable (handleOptionChange index value options).

(** The argument of the [createPoll] call in [handleSubmit]. *)
Definition pollData (s : FormState) : CreatePollFormData :=
  {| title := formTitle s;
     description := Some (formDescription s);
     options := List.filter (fun option => JS.truthy (JS.trim option))
                            (formOptions s);
     isPublic := true;
     allowMultipleVotes := false;
     allowAnonymousVotes := true |}.



(** The messages with which the two server actions reject their input. *)
Definition rejections : list string :=
  [ "Title is required";
    "At least 2 options are required";
    "Maximum 10 options allowed";
    "All options must have text" ].

End PollForm.

(** ** The items service (Simple.js)

    An in-memory list of items behind three routes. *)

Module Items.

(** A JSON value as far as the service looks at it: [typeof] tells strings
    and numbers from the rest ([undefined] for a missing field included). *)
Inductive Json :=
| JsonString (s : string)
| JsonNumber (x : float)
| JsonOther.

Record Item := { id : nat; name : string; price : float }.

Record Response := {
  status : nat;
  created : option Item;        (* the item in the body of a 201 *)
  message : option string       (* the message in the body of a 400 *)
}.

(** [const items = [{ id: 1, name: 'Hello', price: 1 }]] *)
Definition initialItems : list Item :=
  [ {| id := 1; name := "Hello"; price := JS.Number 1 |} ].

(** [app.get('/items', ...)] *)
Definition listItems (items : list Item) : list Item := items.

(** [app.post('/items', ...)] on the fields [name] and [price] of
    [req.body || {}]. *)
Definition createItem (name price : Json) : State (list Item) Response :=
  fun items =>
    match name, price with
    | JsonString name, JsonNumber price =>
        let newItem :=
          {| id := length items + 1; name := name; price := price |} in
        ({| status := 201; created := Some newItem; message := None |},
         (items ++ [newItem])%list)
    | _, _ =>
        ({| status := 400; created := None;
            message := Some "name (string) and price (number) required" |},
         items)
    end.

(** A sequence of POST requests, one after the other. *)
Fixpoint createItems (bodies : list (Json * Json)) (items : list Item)
  : list Item :=
  match bodies with
  | [] => items
  | (name, price) :: rest => createItems rest (createItem name price items).2
  end.

End Items.

(** ** The browser client (part_010, [createClient]) *)

Module BrowserClient.

Record Env := {
  NEXT_PUBLIC_SUPABASE_URL : option string;
  NEXT_PUBLIC_SUPABASE_ANON_KEY : option string
}.

Definition missing : string :=
  "Missing or empty Supabase environment variables. "
  ++ "Please check NEXT_PUBLIC_SUPABASE_URL and "
  ++ "NEXT_PUBLIC_SUPABASE_ANON_KEY in your .env.local file.".

(** The error thrown, or the arguments of [createBrowserClient]. *)
Definition createClient (env : Env) : string + string * string :=
  match NEXT_PUBLIC_SUPABASE_URL env, NEXT_PUBLIC_SUPABASE_ANON_KEY env with
  | Some supabaseUrl, Some supabaseKey =>
      if negb (JS.truthy supabaseUrl) || negb (JS.truthy supabaseKey)
         || String.eqb (JS.trim supabaseUrl) ""
         || String.eqb (JS.trim supabaseKey) ""
      then inl missing
      else inr (supabaseUrl, supabaseKey)
  | _, _ => inl missing
  end.

(** Whether the variables that are set hold ASCII strings (see
    [JS.isASCII]). *)
Definition asciiEnv (env : Env) : bool :=
  match NEXT_PUBLIC_SUPABASE_URL env with
  | Some supabaseUrl => JS.isASCII supabaseUrl
  | None => true
  end
  && match NEXT_PUBLIC_SUPABASE_ANON_KEY env with
     | Some supabaseKey => JS.isASCII supabaseKey
     | None => true
     end.

End BrowserClient.

(** ** More sample data *)

Module MoreSamples.

Import Supabase.

(** A poll of Bob. *)
Definition pollOfBob : PollActions.PollRow :=
  {| PollActions.user_id := "bob-id";
     PollActions.question := "Cats or dogs?";
     PollActions.options := ["Cats"; "Dogs"];
     PollActions.endDate := None;
     PollActions.settings := None |}.

(** Alice's poll "p1" with a vote of Bob on it, and Bob's poll "p2" with a
    vote of Alice. *)
Definition votedWorld (who : AuthResponse) : PollActions.World :=
  {| PollActions.session := who;
     PollActions.polls :=
       <["p1" := Samples.pollOfAlice]> {[ "p2" := pollOfBob ]};
     PollActions.votes :=
       [ {| PollActions.poll_id := "p1";
            PollActions.vote_user_id := Some "bob-id";
            PollActions.option_index := 0 |};
         {| PollActions.poll_id := "p2";
            PollActions.vote_user_id := Some "alice-id";
            PollActions.option_index := 1 |} ];
     PollActions.uuids := Samples.uuid;
     PollActions.issued := 0;
     PollActions.fault := fun _ => None;
     PollActions.log := [] |}.

(** "p2" is the newer poll. *)
Definition createdAt (id : string) : Z :=
  if String.eqb id "p2" then 20%Z else 10%Z.

(** The example of the tally: a poll with the options A, B and C and the
    votes A, A, B. *)
Definition tallyWorld : PollActions.World :=
  {| PollActions.session := anonymous;
     PollActions.polls :=
       {[ "p" := {| PollActions.user_id := "alice-id";
                    PollActions.question := "A, B or C?";
                    PollActions.options := ["A"; "B"; "C"];
                    PollActions.endDate := None;
                    PollActions.settings := None |} ]};
     PollActions.votes :=
       map (fun index =>
              {| PollActions.poll_id := "p";
                 PollActions.vote_user_id := None;
                 PollActions.option_index := index |})
           [0%Z; 0%Z; 1%Z];
     PollActions.uuids := Samples.uuid;
     PollActions.issued := 0;
     PollActions.fault := fun _ => None;
     PollActions.log := [] |}.

(** Supabase Auth accepting every call. *)
Definition auth : AuthActions.World :=
  {| AuthActions.answer := fun _ => None; AuthActions.calls := [] |}.

End MoreSamples.

(** ** Tactics *)

(** The run sent nothing. *)
Ltac nothing_sent :=
  exists []; rewrite app_nil_r; split; [reflexivity|];
  split; [intros [] | intros; contradiction].

(** The run sent exactly the requests [l], none of them to the identity
    provider, and a poll row among them names the creator of the goal. *)
Ltac sent l :=
  exists l; split; [rewrite <- ?app_assoc; reflexivity|];
  split;
  [ cbn [In]; intros H; repeat destruct H as [H|H]; try discriminate H;
    exact H
  | intros;
    repeat match goal with x := _ |- _ => subst x end;
    match goal with
    | H : In _ _ |- _ =>
        cbn [In] in H; repeat destruct H as [H|H];
        try discriminate H; try contradiction;
        injection H; intros; subst; reflexivity
    end ].

(** ** Properties *)

(** *** Scoped requests that select no row *)

Section ScopedRequests.

Import Supabase PollActions.

Lemma matches_scope id uid key row :
  matches [EqId id; EqUserId uid] key row = true <->
  key = id /\ user_id row = uid.
Proof.
  unfold matches; simpl. rewrite andb_true_r, andb_true_iff.
  rewrite !String.eqb_eq. reflexivity.
Qed.

Lemma selectsNothing_matches id uid table key row :
  selectsNothing id uid table ->
  table !! key = Some row ->
  matches [EqId id; EqUserId uid] key row = false.
Proof.
  intros Hnone Hrow.
  destruct (matches [EqId id; EqUserId uid] key row) eqn:Hm; [|reflexivity].
  apply matches_scope in Hm as [-> Howner].
  exfalso. exact (Hnone row Hrow Howner).
Qed.

Lemma kept_all id uid (table : gmap string PollRow) :
  selectsNothing id uid table ->
  filter (fun kv => matches [EqId id; EqUserId uid] kv.1 kv.2 = false) table
  = table.
Proof.
  intros Hnone. apply map_filter_id. intros key row Hrow. simpl.
  eapply selectsNothing_matches; eauto.
Qed.

Lemma removed_none id uid (table : gmap string PollRow) :
  selectsNothing id uid table ->
  filter (fun kv => matches [EqId id; EqUserId uid] kv.1 kv.2 = true) table
  = ∅.
Proof.
  intros Hnone. apply map_eq. intros key. rewrite lookup_empty.
  apply map_lookup_filter_None. right. intros row Hrow Hm.
  cbn [fst snd] in Hm.
  rewrite (selectsNothing_matches _ _ _ _ _ Hnone Hrow) in Hm. discriminate.
Qed.

Lemma filter_all_true {A} (f : A -> bool) (l : list A) :
  (forall x, f x = true) -> List.filter f l = l.
Proof.
  intros Hf. induction l as [|x l IH]; simpl; [reflexivity|].
  rewrite Hf, IH. reflexivity.
Qed.

Lemma updated_none q opts id uid (table : gmap string PollRow) :
  selectsNothing id uid table ->
  map_imap
    (fun key row =>
       Some (if matches [EqId id; EqUserId uid] key row
             then {| user_id := user_id row; question := stored q;
                     options := map stored opts; endDate := endDate row;
                     settings := settings row |}
             else row)) table
  = table.
Proof.
  intros Hnone. apply map_eq. intros key.
  rewrite map_lookup_imap.
  destruct (table !! key) as [row|] eqn:Hrow; [|reflexivity].
  cbn [mbind option_bind].
  rewrite (selectsNothing_matches _ _ _ _ _ Hnone Hrow). reflexivity.
Qed.

End ScopedRequests.

(** *** deletePoll *)

Section DeletePoll.

Import Supabase PollActions.

(** What getPollById answers is read off the [polls] table. *)
Lemma getPollById_answer (id : string) (w : World) :
  (getPollById id w).1 =
  match fault w (SelectPollSingle [EqId id]) with
  | Some e => {| poll := None; pollError := Some e |}
  | None =>
      match polls w !! id with
      | Some row => {| poll := Some (id, row); pollError := None |}
      | None => {| poll := None; pollError := Some no_single_row |}
      end
  end.
Proof.
  unfold getPollById, bind, selectPollSingle, ret.
  destruct (fault w (SelectPollSingle [EqId id])); [reflexivity|].
  destruct (polls w !! id); reflexivity.
Qed.

(** C1. When the signed-in user B does not own the poll [id], or no poll
    has that id, deletePoll sends one delete request scoped by both the id
    and [user_id = B.id], returns [error: null], leaves both tables as they
    were, and getPollById answers afterwards as it did before: with the
    poll P if there is one. *)
Theorem deletePoll_without_ownership_changes_nothing
    (w : World) (id : string) (B : User) :
  session w = signedIn B ->
  fault w (DeletePolls [EqId id; EqUserId (Supabase.id B)]) = None ->
  (forall P, polls w !! id = Some P -> user_id P <> Supabase.id B) ->
  error (deletePoll id w).1 = None /\
  log (deletePoll id w).2 =
    (log w ++ [AuthGetUser;
               DeletePolls [EqId id; EqUserId (Supabase.id B)];
               RevalidatePath "/polls"])%list /\
  polls (deletePoll id w).2 = polls w /\
  votes (deletePoll id w).2 = votes w /\
  (getPollById id (deletePoll id w).2).1 = (getPollById id w).1 /\
  (forall P, polls w !! id = Some P ->
             fault w (SelectPollSingle [EqId id]) = None ->
             (getPollById id (deletePoll id w).2).1
             = {| poll := Some (id, P); pollError := None |}).
Proof.
  intros Hsession Hfault Hforeign.
  assert (Hrun : deletePoll id w =
    (ok, logged (RevalidatePath "/polls")
           (withTables (polls w) (votes w) (issued w)
              (logged (DeletePolls [EqId id; EqUserId (Supabase.id B)])
                 (logged AuthGetUser w))))).
  { unfold deletePoll, bind, getUser, deletePolls, revalidatePath, ret.
    rewrite Hsession. cbn [signedIn userError user].
    cbn [logged fault]. rewrite Hfault.
    cbn [logged polls votes issued].
    rewrite kept_all, removed_none by exact Hforeign.
    rewrite filter_all_true; [reflexivity|].
    intros v. rewrite lookup_empty. apply bool_decide_eq_true. reflexivity. }
  rewrite Hrun. cbn [fst snd error ok logged withTables log polls votes].
  repeat split.
  - rewrite <- !app_assoc. reflexivity.
  - rewrite !getPollById_answer. reflexivity.
  - intros P HP Hselect. rewrite getPollById_answer.
    cbn [logged withTables fault polls]. rewrite Hselect, HP. reflexivity.
Qed.

(** Bob deletes Alice's poll "p1": nothing happens and the poll is still
    there. *)
Lemma deletePoll_without_ownership_witness :
  let after := deletePoll "p1" (Samples.world (signedIn Samples.bob)) in
  error after.1 = None /\
  polls after.2 !! "p1" = Some Samples.pollOfAlice /\
  (getPollById "p1" after.2).1
  = {| poll := Some ("p1", Samples.pollOfAlice); pollError := None |}.
Proof.
  pose proof (deletePoll_without_ownership_changes_nothing
                (Samples.world (signedIn Samples.bob)) "p1" Samples.bob
                eq_refl eq_refl) as H.
  destruct H as (Herr & _ & Hpolls & _ & _ & Hget).
  - intros P HP. change (Some Samples.pollOfAlice = Some P) in HP.
    injection HP as <-. discriminate.
  - cbv zeta. split; [exact Herr|]. split.
    + rewrite Hpolls. reflexivity.
    + apply Hget; reflexivity.
Defined.

End DeletePoll.

(** *** updatePoll *)

Section UpdatePoll.

Import Supabase PollActions.

Lemma kindOf_not_forbidden (message : string) :
  Spec.kindOf message <> Spec.Forbidden.
Proof.
  unfold Spec.kindOf.
  destruct (existsb (String.eqb message) Spec.loginMessages); [discriminate|].
  destruct (existsb (String.eqb message) Spec.validationMessages);
    discriminate.
Qed.

Lemma outcome_not_forbidden (error : option string) :
  Spec.outcome error <> Some Spec.Forbidden.
Proof.
  destruct error as [message|]; simpl; [|discriminate].
  intros H. injection H as H. exact (kindOf_not_forbidden message H).
Qed.

(** C2, counterexample: Bob, signed in, updates Alice's poll "p1" with the
    title "x".  The poll is unchanged, but the result is [error: null]:
    success, not Forbidden. *)
Lemma updatePoll_by_non_owner_returns_success :
  polls (Samples.world (signedIn Samples.bob)) !! "p1"
  = Some Samples.pollOfAlice /\
  user_id Samples.pollOfAlice <> Supabase.id Samples.bob /\
  error (updatePoll "p1" (Samples.form "x" ["Tabs"; "Spaces"])
                    (Samples.world (signedIn Samples.bob))).1 = None /\
  Spec.outcome
    (error (updatePoll "p1" (Samples.form "x" ["Tabs"; "Spaces"])
                       (Samples.world (signedIn Samples.bob))).1)
  <> Some Spec.Forbidden /\
  polls (updatePoll "p1" (Samples.form "x" ["Tabs"; "Spaces"])
                    (Samples.world (signedIn Samples.bob))).2 !! "p1"
  = Some Samples.pollOfAlice.
Proof.
  split; [reflexivity|]. split; [discriminate|].
  split; [vm_compute; reflexivity|].
  split; [apply outcome_not_forbidden|].
  vm_compute. reflexivity.
Qed.

(** C2, amended.  For every stored poll P whose owner is not the signed-in
    user B, updatePoll leaves P and both tables unchanged.  It does not
    answer Forbidden: a form that fails the question/options check is
    rejected with the validation message, and otherwise the update goes to
    the gateway scoped by the poll id and [user_id = B.id], selects no row,
    and the action returns whatever error the gateway reports, [null] if
    none. *)
Theorem updatePoll_without_ownership_changes_nothing
    (w : World) (pollId : string) (formData : FormData) (B : User)
    (P : PollRow) :
  session w = signedIn B ->
  polls w !! pollId = Some P ->
  user_id P <> Supabase.id B ->
  polls (updatePoll pollId formData w).2 = polls w /\
  polls (updatePoll pollId formData w).2 !! pollId = Some P /\
  votes (updatePoll pollId formData w).2 = votes w /\
  log (updatePoll pollId formData w).2 =
    (log w ++
     match updateForm formData with
     | None => []
     | Some (question, options) =>
         [AuthGetUser;
          UpdatePolls question options
                      [EqId pollId; EqUserId (Supabase.id B)]]
     end)%list /\
  error (updatePoll pollId formData w).1 =
    match updateForm formData with
    | None => Some "Please provide a question and at least two options."
    | Some (question, options) =>
        fault w (UpdatePolls question options
                             [EqId pollId; EqUserId (Supabase.id B)])
    end /\
  Spec.outcome (error (updatePoll pollId formData w).1)
  <> Some Spec.Forbidden.
Proof.
  intros Hsession HP Howner.
  assert (Hnone : selectsNothing pollId (Supabase.id B) (polls w)).
  { intros row Hrow. rewrite HP in Hrow. injection Hrow as <-. exact Howner. }
  assert (Hrun :
    polls (updatePoll pollId formData w).2 = polls w /\
    votes (updatePoll pollId formData w).2 = votes w /\
    log (updatePoll pollId formData w).2 =
      (log w ++
       match updateForm formData with
       | None => []
       | Some (question, options) =>
           [AuthGetUser;
            UpdatePolls question options
                        [EqId pollId; EqUserId (Supabase.id B)]]
       end)%list /\
    error (updatePoll pollId formData w).1 =
      match updateForm formData with
      | None => Some "Please provide a question and at least two options."
      | Some (question, options) =>
          fault w (UpdatePolls question options
                               [EqId pollId; EqUserId (Supabase.id B)])
      end).
  { unfold updatePoll.
    destruct (updateForm formData) as [[q opts]|];
      [|cbn [ret fst snd]; rewrite app_nil_r; repeat split].
    unfold bind, getUser, updatePolls, ret.
    rewrite Hsession. cbn [signedIn userError user logged fault].
    destruct (fault w (UpdatePolls q opts
                         [EqId pollId; EqUserId (Supabase.id B)]));
      cbn [fst snd logged withTables polls votes issued log error failed ok].
    - rewrite <- app_assoc. repeat split.
    - rewrite updated_none by exact Hnone. rewrite <- app_assoc.
      repeat split. }
  destruct Hrun as (Hpolls & Hvotes & Hlog & Herror).
  split; [exact Hpolls|]. split; [rewrite Hpolls; exact HP|].
  split; [exact Hvotes|]. split; [exact Hlog|]. split; [exact Herror|].
  apply outcome_not_forbidden.
Qed.

(** Bob updates Alice's poll "p1": the row is kept and the result is
    [error: null]. *)
Lemma updatePoll_without_ownership_witness :
  polls (updatePoll "p1" (Samples.form "x" ["Tabs"; "Spaces"])
                    (Samples.world (signedIn Samples.bob))).2 !! "p1"
  = Some Samples.pollOfAlice /\
  error (updatePoll "p1" (Samples.form "x" ["Tabs"; "Spaces"])
                    (Samples.world (signedIn Samples.bob))).1 = None.
Proof.
  pose proof (updatePoll_without_ownership_changes_nothing
                (Samples.world (signedIn Samples.bob)) "p1"
                (Samples.form "x" ["Tabs"; "Spaces"]) Samples.bob
                Samples.pollOfAlice eq_refl eq_refl) as H.
  destruct H as (_ & Hkept & _ & _ & Herror & _); [discriminate|].
  split; [exact Hkept|]. rewrite Herror. reflexivity.
Defined.

End UpdatePoll.

(** *** submitVote *)

Section SubmitVote.

Import Supabase PollActions.

(** The row submitVote sends. *)
Lemma submitVote_inserts (pollId : string) (optionIndex : Z) (w : World) :
  let row := {| poll_id := pollId;
                vote_user_id := option_map Supabase.id (user (session w));
                option_index := optionIndex |} in
  is_Some (polls w !! pollId) ->
  fault w (InsertVote row) = None ->
  submitVote pollId optionIndex w =
  (ok, withTables (polls w) (votes w ++ [row]) (issued w)
         (logged (InsertVote row) (logged AuthGetUser w))).
Proof.
  intros row [P HP] Hfault.
  unfold submitVote, bind, getUser, insertVote, ret.
  cbn [logged fault polls votes issued poll_id].
  fold row. rewrite Hfault, HP. reflexivity.
Qed.

(** C3, counterexample: the poll "p1" ended at time 100 and it is now 200,
    so the poll is CLOSED; submitVote returns [error: null] and the votes
    table gains a row. *)
Lemma submitVote_on_a_closed_poll_succeeds :
  polls (Samples.world (signedIn Samples.bob)) !! "p1"
  = Some Samples.pollOfAlice /\
  Spec.closed 200 (endDate Samples.pollOfAlice) = true /\
  votes (Samples.world (signedIn Samples.bob)) = [] /\
  error (submitVote "p1" 0 (Samples.world (signedIn Samples.bob))).1 = None /\
  votes (submitVote "p1" 0 (Samples.world (signedIn Samples.bob))).2
  = [ {| poll_id := "p1"; vote_user_id := Some "bob-id";
         option_index := 0 |} ].
Proof. repeat split; vm_compute; reflexivity. Qed.

(** C3, amended.  submitVote reads neither the poll nor the clock: for
    every stored poll that is CLOSED (endDate set and not after now),
    whatever its settings, submitVote adds one Vote row (the poll id, the
    signed-in user's id or null, the option index) and returns
    [error: null], provided the gateway accepts the insert. *)
Theorem submitVote_ignores_the_end_date
    (w : World) (pollId : string) (optionIndex : Z) (P : PollRow) (now : Z) :
  polls w !! pollId = Some P ->
  Spec.closed now (endDate P) = true ->
  fault w (InsertVote
             {| poll_id := pollId;
                vote_user_id := option_map Supabase.id (user (session w));
                option_index := optionIndex |}) = None ->
  error (submitVote pollId optionIndex w).1 = None /\
  votes (submitVote pollId optionIndex w).2 =
    (votes w ++ [ {| poll_id := pollId;
                     vote_user_id :=
                       option_map Supabase.id (user (session w));
                     option_index := optionIndex |} ])%list /\
  polls (submitVote pollId optionIndex w).2 = polls w.
Proof.
  intros HP _ Hfault.
  rewrite submitVote_inserts by (rewrite ?HP; eauto).
  repeat split.
Qed.

(** An anonymous vote on the poll "p1" at its end time 100. *)
Lemma submitVote_ignores_the_end_date_witness :
  error (submitVote "p1" 1 (Samples.world anonymous)).1 = None /\
  votes (submitVote "p1" 1 (Samples.world anonymous)).2
  = [ {| poll_id := "p1"; vote_user_id := None; option_index := 1 |} ].
Proof.
  pose proof (submitVote_ignores_the_end_date
                (Samples.world anonymous) "p1" 1 Samples.pollOfAlice 100
                eq_refl eq_refl eq_refl) as (Herror & Hvotes & _).
  split; [exact Herror | exact Hvotes].
Defined.

(** C4, counterexample: the poll "p1" allows one vote per user and
    requires sign-in.  Bob votes twice; both calls return [error: null],
    two Vote rows of Bob exist afterwards, and the tally counts 2 votes. *)
Lemma second_vote_of_the_same_user_is_recorded :
  settings Samples.openPoll
  = Some {| allowMultipleVotes := false; requireAuthentication := true |} /\
  error (submitVote "p1" 0 (Samples.openWorld (signedIn Samples.bob))).1
  = None /\
  error (submitVote "p1" 0
           (submitVote "p1" 0 (Samples.openWorld (signedIn Samples.bob))).2).1
  = None /\
  length (Spec.votesOf "p1" "bob-id"
            (votes (submitVote "p1" 0
                      (submitVote "p1" 0
                         (Samples.openWorld (signedIn Samples.bob))).2).2))
  = 2 /\
  Spec.totalVotes
    (Spec.getTally "p1"
       (submitVote "p1" 0
          (submitVote "p1" 0 (Samples.openWorld (signedIn Samples.bob))).2).2)
  = 2.
Proof. repeat split; vm_compute; reflexivity. Qed.

Lemma votesOf_app pollId userId (l1 l2 : list VoteRow) :
  Spec.votesOf pollId userId (l1 ++ l2)
  = (Spec.votesOf pollId userId l1 ++ Spec.votesOf pollId userId l2)%list.
Proof. unfold Spec.votesOf. apply List.filter_app. Qed.

(** C4, amended.  submitVote looks up no earlier vote and the votes table
    has no uniqueness constraint: on every stored poll, also one with
    allowMultipleVotes == false and requireAuthentication == true, two
    calls of the signed-in user U both return [error: null] and add one
    Vote row each, so that two more Vote rows of (pollId, U) exist
    afterwards, provided the gateway accepts the inserts. *)
Theorem submitVote_twice_records_two_votes
    (w : World) (pollId : string) (i1 i2 : Z) (U : User) (P : PollRow) :
  session w = signedIn U ->
  polls w !! pollId = Some P ->
  settings P
  = Some {| allowMultipleVotes := false; requireAuthentication := true |} ->
  fault w (InsertVote {| poll_id := pollId;
                         vote_user_id := Some (Supabase.id U);
                         option_index := i1 |}) = None ->
  fault w (InsertVote {| poll_id := pollId;
                         vote_user_id := Some (Supabase.id U);
                         option_index := i2 |}) = None ->
  error (submitVote pollId i1 w).1 = None /\
  error (submitVote pollId i2 (submitVote pollId i1 w).2).1 = None /\
  votes (submitVote pollId i2 (submitVote pollId i1 w).2).2 =
    (votes w ++ [ {| poll_id := pollId;
                     vote_user_id := Some (Supabase.id U);
                     option_index := i1 |};
                  {| poll_id := pollId;
                     vote_user_id := Some (Supabase.id U);
                     option_index := i2 |} ])%list /\
  length (Spec.votesOf pollId (Supabase.id U)
            (votes (submitVote pollId i2 (submitVote pollId i1 w).2).2))
  = length (Spec.votesOf pollId (Supabase.id U) (votes w)) + 2.
Proof.
  intros Hsession HP _ Hfault1 Hfault2.
  rewrite (submitVote_inserts pollId i1 w);
    [| rewrite HP; eauto | rewrite Hsession; exact Hfault1].
  cbn [fst snd].
  rewrite submitVote_inserts;
    [| cbn [withTables logged polls]; rewrite HP; eauto
     | cbn [withTables logged session fault]; rewrite Hsession; exact Hfault2].
  cbn [fst snd error ok withTables logged votes session].
  rewrite Hsession. cbn [option_map signedIn user].
  split; [reflexivity|]. split; [reflexivity|].
  split; [rewrite <- app_assoc; reflexivity|].
  rewrite !votesOf_app, !length_app.
  unfold Spec.votesOf at 2 3. cbn [List.filter poll_id vote_user_id].
  rewrite String.eqb_refl, bool_decide_eq_true_2 by reflexivity.
  cbn [andb length]. lia.
Qed.

(** Bob votes for option 0 and then for option 1 of the poll "p1". *)
Lemma submitVote_twice_witness :
  length (Spec.votesOf "p1" "bob-id"
            (votes (submitVote "p1" 1
                      (submitVote "p1" 0
                         (Samples.openWorld (signedIn Samples.bob))).2).2))
  = 2.
Proof.
  pose proof (submitVote_twice_records_two_votes
                (Samples.openWorld (signedIn Samples.bob)) "p1" 0 1
                Samples.bob Samples.openPoll
                eq_refl eq_refl eq_refl eq_refl eq_refl)
    as (_ & _ & _ & Hcount).
  exact Hcount.
Defined.

End SubmitVote.

(** *** createPoll of the poll actions *)

Section CreatePoll.

Import Supabase PollActions.

(** What a run of createPoll does, case by case. *)
Lemma createPoll_run (formData : FormData) (w : World) :
  createPoll formData w =
  match sanitize formData with
  | inl message => (failed message, w)
  | inr (q, opts) =>
      match userError (session w), user (session w) with
      | Some message, _ => (failed message, logged AuthGetUser w)
      | None, None =>
          (failed "You must be logged in to create a poll.",
           logged AuthGetUser w)
      | None, Some u =>
          let request := InsertPoll (Supabase.id u) q opts in
          match fault w request with
          | Some message =>
              (failed message, logged request (logged AuthGetUser w))
          | None =>
              match polls w !! uuids w (issued w) with
              | Some _ =>
                  (failed duplicate_key,
                   logged request (logged AuthGetUser w))
              | None =>
                  (ok,
                   logged (RevalidatePath "/polls")
                     (withTables
                        (<[uuids w (issued w) :=
                             {| user_id := Supabase.id u; question := q;
                                options := opts; endDate := None;
                                settings := None |}]> (polls w))
                        (votes w) (S (issued w))
                        (logged request (logged AuthGetUser w))))
              end
          end
      end
  end.
Proof.
  unfold createPoll.
  destruct (sanitize formData) as [message|[q opts]]; [reflexivity|].
  unfold bind, getUser, insertPoll, revalidatePath, ret.
  destruct (userError (session w)); [reflexivity|].
  destruct (user (session w)) as [u|]; [|reflexivity].
  cbn [logged fault polls uuids issued votes].
  destruct (fault w (InsertPoll (Supabase.id u) q opts)); [reflexivity|].
  destruct (polls w !! uuids w (issued w)); reflexivity.
Qed.

(** C6, counterexample: nobody is signed in and the question is blank.
    createPoll answers with the validation message, a ValidationError and
    not Unauthorized, and the identity provider has not been asked. *)
Lemma createPoll_validates_before_it_authenticates :
  user (session (Samples.world anonymous)) = None /\
  error (createPoll (Samples.form "   " ["Red"; "Blue"])
                    (Samples.world anonymous)).1
  = Some "Please provide a question and at least two options." /\
  Spec.outcome
    (error (createPoll (Samples.form "   " ["Red"; "Blue"])
                       (Samples.world anonymous)).1)
  = Some Spec.ValidationError /\
  log (createPoll (Samples.form "   " ["Red"; "Blue"])
                  (Samples.world anonymous)).2 = [].
Proof. repeat split; vm_compute; reflexivity. Qed.

(** The two messages of the checks that come before the identity
    provider is asked. *)
Lemma sanitize_messages (formData : FormData) (message : string) :
  sanitize formData = inl message ->
  message = "Invalid form data." \/
  message = "Please provide a question and at least two options.".
Proof.
  unfold sanitize.
  destruct (get "question" formData) as [[q|name]|];
    [|intros [= <-]; left; reflexivity|intros [= <-]; left; reflexivity].
  destruct (_ || _); [intros [= <-]; right; reflexivity | discriminate].
Qed.

(** C6, amended.  When no user is signed in, createPoll writes nothing and
    returns an error; the authentication check is the last check, not the
    first.  Either the form fails the type check or the sanitisation: it
    gets that validation message and the identity provider is not asked at
    all.  Or the form passes, the identity provider is asked once, and the
    result is its own error message if it reports one and otherwise 'You
    must be logged in to create a poll.'.  For a form of ASCII texts,
    [sanitize] tells which of the two it is. *)
Theorem createPoll_without_a_user_writes_nothing
    (formData : FormData) (w : World) :
  user (session w) = None ->
  polls (createPoll formData w).2 = polls w /\
  votes (createPoll formData w).2 = votes w /\
  (log (createPoll formData w).2 = log w /\
   (error (createPoll formData w).1 = Some "Invalid form data." \/
    error (createPoll formData w).1
    = Some "Please provide a question and at least two options.")
   \/
   log (createPoll formData w).2 = (log w ++ [AuthGetUser])%list /\
   error (createPoll formData w).1
   = Some match userError (session w) with
          | Some message => message
          | None => "You must be logged in to create a poll."
          end) /\
  (asciiForm formData = true ->
   log (createPoll formData w).2 =
     (log w ++ match sanitize formData with
               | inl _ => []
               | inr _ => [AuthGetUser]
               end)%list /\
   error (createPoll formData w).1 =
     Some match sanitize formData with
          | inl message => message
          | inr _ =>
              match userError (session w) with
              | Some message => message
              | None => "You must be logged in to create a poll."
              end
          end /\
   (forall sanitized,
      sanitize formData = inr sanitized ->
      userError (session w) = None ->
      Spec.outcome (error (createPoll formData w).1)
      = Some Spec.Unauthorized)).
Proof.
  intros Hnobody. rewrite createPoll_run.
  destruct (sanitize formData) as [message|[q opts]] eqn:Hform.
  - cbn [fst snd failed error]. rewrite app_nil_r.
    split; [reflexivity|]. split; [reflexivity|]. split.
    + left. split; [reflexivity|].
      destruct (sanitize_messages formData message Hform) as [-> | ->];
        [left | right]; reflexivity.
    + intros _. repeat split. intros sanitized H. discriminate H.
  - rewrite Hnobody.
    destruct (userError (session w)) as [message|];
      cbn [fst snd failed error logged polls votes log].
    + split; [reflexivity|]. split; [reflexivity|]. split.
      * right. split; reflexivity.
      * intros _. repeat split. intros sanitized _ H. discriminate H.
    + split; [reflexivity|]. split; [reflexivity|]. split.
      * right. split; reflexivity.
      * intros _. repeat split.
Qed.

(** A valid form, nobody signed in. *)
Lemma createPoll_without_a_user_witness :
  error (createPoll (Samples.form "Tabs or spaces?" ["Tabs"; "Spaces"])
                    (Samples.world anonymous)).1
  = Some "You must be logged in to create a poll." /\
  polls (createPoll (Samples.form "Tabs or spaces?" ["Tabs"; "Spaces"])
                    (Samples.world anonymous)).2
  = polls (Samples.world anonymous).
Proof.
  pose proof (createPoll_without_a_user_writes_nothing
                (Samples.form "Tabs or spaces?" ["Tabs"; "Spaces"])
                (Samples.world anonymous) eq_refl)
    as (Hpolls & _ & _ & Hexact).
  destruct (Hexact eq_refl) as (_ & Herror & _).
  split; [exact Herror | exact Hpolls].
Defined.

(** C7, the failing run: Alice, signed in, submits the options "A" and
    "A".  Nothing removes the duplicate: two options are counted, the poll
    is stored with both, and the result is [error: null].  The options
    "A" and "  " are rejected, since trimming leaves one. *)
Theorem createPoll_keeps_duplicate_options :
  sanitizedOptions (Samples.form "Favourite letter?" ["A"; "A"])
  = ["A"; "A"] /\
  error (createPoll (Samples.form "Favourite letter?" ["A"; "A"])
                    (Samples.world (signedIn Samples.alice))).1 = None /\
  polls (createPoll (Samples.form "Favourite letter?" ["A"; "A"])
                    (Samples.world (signedIn Samples.alice))).2 !! "poll-0"
  = Some {| user_id := "alice-id"; question := "Favourite letter?";
            options := ["A"; "A"]; endDate := None; settings := None |} /\
  (createPoll (Samples.form "Favourite letter?" ["A"; "  "])
              (Samples.world (signedIn Samples.alice)))
  = (failed "Please provide a question and at least two options.",
     Samples.world (signedIn Samples.alice)).
Proof. repeat split; vm_compute; reflexivity. Qed.

(** The floor that the action does enforce: fewer than two options that
    are non-empty after trimming, duplicates counted, are rejected before
    any request is sent. *)
Lemma createPoll_option_floor (formData : FormData) (w : World) :
  length (sanitizedOptions formData) < 2 ->
  (createPoll formData w).2 = w /\
  Spec.outcome (error (createPoll formData w).1)
  = Some Spec.ValidationError.
Proof.
  intros Hfew. rewrite createPoll_run. unfold sanitize.
  destruct (get "question" formData) as [[q|name]|];
    [|split; reflexivity|split; reflexivity].
  destruct (Nat.ltb_spec (length (sanitizedOptions formData)) 2) as [_|Hge];
    [|lia].
  rewrite orb_true_r. split; reflexivity.
Qed.

End CreatePoll.

(** *** createPoll of the New-poll scaffolding *)

Section NewPollCreate.

Import Supabase NewPollStore.

(** C8, counterexample: Alice, signed in, submits a question and eleven
    options to the createPoll of the poll actions (part_000).  It checks
    the floor of two options only: the result is [error: null], no
    ValidationError, and the poll is stored with all eleven options. *)
Lemma createPoll_stores_eleven_options :
  length (Samples.numbered 11) = 11 /\
  PollActions.sanitizedOptions
    (Samples.form "Test Poll" (Samples.numbered 11))
  = Samples.numbered 11 /\
  PollActions.error
    (PollActions.createPoll
       (Samples.form "Test Poll" (Samples.numbered 11))
       (Samples.world (signedIn Samples.alice))).1 = None /\
  Spec.outcome
    (PollActions.error
       (PollActions.createPoll
          (Samples.form "Test Poll" (Samples.numbered 11))
          (Samples.world (signedIn Samples.alice))).1) = None /\
  PollActions.polls
    (PollActions.createPoll
       (Samples.form "Test Poll" (Samples.numbered 11))
       (Samples.world (signedIn Samples.alice))).2 !! "poll-0"
  = Some {| PollActions.user_id := "alice-id";
            PollActions.question := "Test Poll";
            PollActions.options := Samples.numbered 11;
            PollActions.endDate := None;
            PollActions.settings := None |}.
Proof. repeat split; vm_compute; reflexivity. Qed.

(** C8, amended.  The maximum of 10 options is enforced by the createPoll
    of projects/alx-polly (part_008), on the number of options submitted:
    an input with more than 10 options is rejected before any request is
    sent, the world is unchanged, and the result is a validation error,
    'Title is required' from the earlier title check or 'Maximum 10
    options allowed'.  For an ASCII title it is the former exactly when
    the title is blank. *)
Theorem createPoll_rejects_more_than_ten_options
    (formData : CreatePollFormData) (w : World) :
  10 < length (options formData) ->
  (ProjectPolly.createPoll formData w).2 = w /\
  success (ProjectPolly.createPoll formData w).1 = false /\
  pollId (ProjectPolly.createPoll formData w).1 = None /\
  (error (ProjectPolly.createPoll formData w).1 = Some "Title is required"
   \/ error (ProjectPolly.createPoll formData w).1
      = Some "Maximum 10 options allowed") /\
  Spec.outcome (error (ProjectPolly.createPoll formData w).1)
  = Some Spec.ValidationError /\
  (JS.isASCII (title formData) = true ->
   error (ProjectPolly.createPoll formData w).1 =
     Some (if JS.truthy (JS.trim (title formData))
           then "Maximum 10 options allowed"
           else "Title is required")).
Proof.
  intros Hmany. unfold ProjectPolly.createPoll.
  destruct (JS.truthy (JS.trim (title formData))); cbn [negb].
  - destruct (Nat.ltb_spec (length (options formData)) 2) as [Hlt|_];
      [lia|].
    destruct (Nat.ltb_spec 10 (length (options formData))) as [_|Hle];
      [|lia].
    repeat split. right. reflexivity.
  - repeat split. left. reflexivity.
Qed.

(** Eleven options, as in the test of the action. *)
Lemma createPoll_rejects_more_than_ten_options_witness :
  success (ProjectPolly.createPoll
             (Samples.pollData "Test Poll" (Samples.numbered 11))
             (Samples.emptyStore anonymous Samples.nothing)).1 = false /\
  error (ProjectPolly.createPoll
           (Samples.pollData "Test Poll" (Samples.numbered 11))
           (Samples.emptyStore anonymous Samples.nothing)).1
  = Some "Maximum 10 options allowed".
Proof.
  pose proof (createPoll_rejects_more_than_ten_options
                (Samples.pollData "Test Poll" (Samples.numbered 11))
                (Samples.emptyStore anonymous Samples.nothing)) as H.
  destruct H as (_ & Hsuccess & _ & _ & _ & Herror).
  - vm_compute. lia.
  - split; [exact Hsuccess | exact (Herror eq_refl)].
Defined.

(** The other two createPoll actions carry no upper bound. *)
Remark createPoll_variants_without_the_cap :
  PollActions.error
    (PollActions.createPoll
       (Samples.form "Test Poll" (Samples.numbered 11))
       (Samples.world (signedIn Samples.alice))).1 = None /\
  success
    (NewPoll.createPoll (Samples.pollData "Test Poll" (Samples.numbered 11))
       (Samples.emptyStore anonymous Samples.nothing)).1 = true.
Proof. split; vm_compute; reflexivity. Qed.

(** C5, the failing run: the gateway stores the poll and then refuses the
    options.  createPoll (projects/alx-polly, part_008) returns 'Failed to
    create poll options' and the poll row stays in the store, without any
    option. *)
Theorem createPoll_options_failure_leaves_the_poll :
  (ProjectPolly.createPoll
     (Samples.pollData "Test Poll" ["Option 1"; "Option 2"; "Option 3"])
     (Samples.emptyStore anonymous Samples.optionsInsert)).1
  = failure "Failed to create poll options" /\
  polls (ProjectPolly.createPoll
           (Samples.pollData "Test Poll" ["Option 1"; "Option 2"; "Option 3"])
           (Samples.emptyStore anonymous Samples.optionsInsert)).2
  = {[ "poll-0" :=
         newPollRow "mock-user-id"
           (Samples.pollData "Test Poll"
              ["Option 1"; "Option 2"; "Option 3"]) ]} /\
  poll_options
    (ProjectPolly.createPoll
       (Samples.pollData "Test Poll" ["Option 1"; "Option 2"; "Option 3"])
       (Samples.emptyStore anonymous Samples.optionsInsert)).2 = [] /\
  log (ProjectPolly.createPoll
         (Samples.pollData "Test Poll" ["Option 1"; "Option 2"; "Option 3"])
         (Samples.emptyStore anonymous Samples.optionsInsert)).2
  = [ InsertPoll
        (newPollRow "mock-user-id"
           (Samples.pollData "Test Poll"
              ["Option 1"; "Option 2"; "Option 3"]));
      InsertOptions
        (optionRows "poll-0" ["Option 1"; "Option 2"; "Option 3"]) ].
Proof. repeat split; vm_compute; reflexivity. Qed.

(** The same in general: whenever that createPoll reports the failure of
    the options insert, the poll it has just inserted is still stored and
    nothing was sent to remove it. *)
Lemma createPoll_options_failure_in_general
    (formData : CreatePollFormData) (w : World) :
  error (ProjectPolly.createPoll formData w).1
  = Some "Failed to create poll options" ->
  polls w !! uuids w (issued w) = None /\
  polls (ProjectPolly.createPoll formData w).2
  = <[uuids w (issued w) := newPollRow "mock-user-id" formData]> (polls w) /\
  poll_options (ProjectPolly.createPoll formData w).2 = poll_options w.
Proof.
  unfold ProjectPolly.createPoll.
  destruct (negb (JS.truthy (JS.trim (title formData)))); [discriminate|].
  destruct (Nat.ltb (length (options formData)) 2); [discriminate|].
  destruct (Nat.ltb 10 (length (options formData))); [discriminate|].
  set (valid := List.filter _ _).
  destruct (Nat.ltb (length valid) 2); [discriminate|].
  unfold bind, insertPoll, insertOptions, revalidatePath, ret.
  destruct (fault w (InsertPoll _)); [discriminate|].
  destruct (polls w !! uuids w (issued w)) eqn:Hfresh; [discriminate|].
  cbn [fst snd logged withTables fault polls poll_options issued].
  destruct (fault w (InsertOptions _)).
  - intros _. repeat split.
  - destruct (forallb _ _); cbn [fst snd error failure];
      [discriminate | intros _; repeat split].
Qed.

(** The New-poll variant sends a single request; when it fails, nothing of
    the poll is stored. *)
Lemma createPoll_rpc_failure_stores_nothing
    (formData : CreatePollFormData) (w : World) :
  success (NewPoll.createPoll formData w).1 = false ->
  polls (NewPoll.createPoll formData w).2 = polls w /\
  poll_options (NewPoll.createPoll formData w).2 = poll_options w.
Proof.
  unfold NewPoll.createPoll.
  destruct (negb (JS.truthy (JS.trim (title formData)))); [split; reflexivity|].
  set (valid := List.filter _ _).
  destruct (Nat.ltb (length valid) 2); [split; reflexivity|].
  unfold bind, createPollWithOptions, revalidatePath, ret.
  destruct (fault w (CreatePollWithOptions _ _)); [split; reflexivity|].
  destruct (polls w !! uuids w (issued w)); [split; reflexivity|].
  cbn [fst snd success]. discriminate.
Qed.

(** The requests of a run: what it appended to the log. *)
Lemma newPoll_createPoll_requests
    (formData : CreatePollFormData) (w : World) :
  exists sent,
    log (NewPoll.createPoll formData w).2 = (log w ++ sent)%list /\
    ~ In AuthGetUser sent /\
    (forall row texts,
       In (CreatePollWithOptions row texts) sent ->
       creator_id row = "demo-user").
Proof.
  unfold NewPoll.createPoll.
  destruct (negb (JS.truthy (JS.trim (title formData)))); [nothing_sent|].
  set (valid := List.filter _ _).
  destruct (Nat.ltb (length valid) 2); [nothing_sent|].
  unfold bind, createPollWithOptions, revalidatePath, ret.
  set (request := CreatePollWithOptions _ _).
  destruct (fault w request);
    [| destruct (polls w !! uuids w (issued w))];
    cbn [fst snd logged withTables log].
  - sent [request].
  - sent [request].
  - sent [request; RevalidatePath "/polls"].
Qed.

Lemma projectPolly_createPoll_requests
    (formData : CreatePollFormData) (w : World) :
  exists sent,
    log (ProjectPolly.createPoll formData w).2 = (log w ++ sent)%list /\
    ~ In AuthGetUser sent /\
    (forall row,
       In (InsertPoll row) sent -> creator_id row = "mock-user-id").
Proof.
  unfold ProjectPolly.createPoll.
  destruct (negb (JS.truthy (JS.trim (title formData)))); [nothing_sent|].
  destruct (Nat.ltb (length (options formData)) 2); [nothing_sent|].
  destruct (Nat.ltb 10 (length (options formData))); [nothing_sent|].
  set (valid := List.filter _ _).
  destruct (Nat.ltb (length valid) 2); [nothing_sent|].
  unfold bind, insertPoll, insertOptions, revalidatePath, ret.
  set (request := InsertPoll _).
  destruct (fault w request);
    [| destruct (polls w !! uuids w (issued w))];
    cbn [fst snd logged withTables log fault polls].
  - sent [request].
  - sent [request].
  - set (second := InsertOptions _).
    destruct (fault w second); [| destruct (forallb _ _)];
      cbn [fst snd logged withTables log].
    + sent [request; second].
    + sent [request; second; RevalidatePath "/polls"].
    + sent [request; second].
Qed.

(** A run does not depend on who is signed in. *)
Lemma newPoll_createPoll_session
    (formData : CreatePollFormData) (w : World) (a : AuthResponse) :
  NewPoll.createPoll formData (withSession a w) =
  ((NewPoll.createPoll formData w).1,
   withSession a (NewPoll.createPoll formData w).2).
Proof.
  unfold NewPoll.createPoll.
  destruct (negb (JS.truthy (JS.trim (title formData)))); [reflexivity|].
  set (valid := List.filter _ _).
  destruct (Nat.ltb (length valid) 2); [reflexivity|].
  unfold bind, createPollWithOptions, revalidatePath, ret.
  cbn [withSession fault polls uuids issued].
  destruct (fault w (CreatePollWithOptions _ _)); [reflexivity|].
  destruct (polls w !! uuids w (issued w)); reflexivity.
Qed.

Lemma projectPolly_createPoll_session
    (formData : CreatePollFormData) (w : World) (a : AuthResponse) :
  ProjectPolly.createPoll formData (withSession a w) =
  ((ProjectPolly.createPoll formData w).1,
   withSession a (ProjectPolly.createPoll formData w).2).
Proof.
  unfold ProjectPolly.createPoll.
  destruct (negb (JS.truthy (JS.trim (title formData)))); [reflexivity|].
  destruct (Nat.ltb (length (options formData)) 2); [reflexivity|].
  destruct (Nat.ltb 10 (length (options formData))); [reflexivity|].
  set (valid := List.filter _ _).
  destruct (Nat.ltb (length valid) 2); [reflexivity|].
  unfold bind, insertPoll, insertOptions, revalidatePath, ret.
  cbn [withSession fault polls uuids issued].
  destruct (fault w (InsertPoll _)); [reflexivity|].
  destruct (polls w !! uuids w (issued w)); [reflexivity|].
  cbn [fst snd logged withTables withSession fault polls].
  destruct (fault w (InsertOptions _)); [reflexivity|].
  destruct (forallb _ _); reflexivity.
Qed.

(** The creator of a poll that was created. *)
Lemma newPoll_createPoll_creator
    (formData : CreatePollFormData) (w : World) :
  success (NewPoll.createPoll formData w).1 = true ->
  exists id row,
    pollId (NewPoll.createPoll formData w).1 = Some id /\
    polls w !! id = None /\
    polls (NewPoll.createPoll formData w).2 !! id = Some row /\
    creator_id row = "demo-user".
Proof.
  unfold NewPoll.createPoll.
  destruct (negb (JS.truthy (JS.trim (title formData)))); [discriminate|].
  set (valid := List.filter _ _).
  destruct (Nat.ltb (length valid) 2); [discriminate|].
  unfold bind, createPollWithOptions, revalidatePath, ret.
  destruct (fault w (CreatePollWithOptions _ _)); [discriminate|].
  destruct (polls w !! uuids w (issued w)) eqn:Hfresh; [discriminate|].
  cbn [fst snd success pollId logged withTables polls].
  intros _. exists (uuids w (issued w)), (newPollRow "demo-user" formData).
  split; [reflexivity|]. split; [exact Hfresh|].
  split; [apply lookup_insert_eq | reflexivity].
Qed.

Lemma projectPolly_createPoll_creator
    (formData : CreatePollFormData) (w : World) :
  success (ProjectPolly.createPoll formData w).1 = true ->
  exists id row,
    pollId (ProjectPolly.createPoll formData w).1 = Some id /\
    polls w !! id = None /\
    polls (ProjectPolly.createPoll formData w).2 !! id = Some row /\
    creator_id row = "mock-user-id".
Proof.
  unfold ProjectPolly.createPoll.
  destruct (negb (JS.truthy (JS.trim (title formData)))); [discriminate|].
  destruct (Nat.ltb (length (options formData)) 2); [discriminate|].
  destruct (Nat.ltb 10 (length (options formData))); [discriminate|].
  set (valid := List.filter _ _).
  destruct (Nat.ltb (length valid) 2); [discriminate|].
  unfold bind, insertPoll, insertOptions, revalidatePath, ret.
  destruct (fault w (InsertPoll _)); [discriminate|].
  destruct (polls w !! uuids w (issued w)) eqn:Hfresh; [discriminate|].
  cbn [fst snd logged withTables fault polls].
  destruct (fault w (InsertOptions _)); [discriminate|].
  destruct (forallb _ _); [|discriminate].
  cbn [fst snd success pollId logged withTables polls].
  intros _.
  exists (uuids w (issued w)), (newPollRow "mock-user-id" formData).
  split; [reflexivity|]. split; [exact Hfresh|].
  split; [apply lookup_insert_eq | reflexivity].
Qed.

(** An input that passes the checks is stored whenever the gateway accepts
    the requests and draws an unused id. *)
Lemma newPoll_createPoll_succeeds
    (formData : CreatePollFormData) (w : World) :
  JS.truthy (JS.trim (title formData)) = true ->
  2 <= length (List.filter (fun option => JS.truthy (JS.trim option))
                           (options formData)) ->
  (forall request, fault w request = None) ->
  polls w !! uuids w (issued w) = None ->
  (NewPoll.createPoll formData w).1
  = {| success := true; pollId := Some (uuids w (issued w));
       error := None |}.
Proof.
  intros Htitle Hoptions Hfault Hfresh. unfold NewPoll.createPoll.
  rewrite Htitle. cbn [negb].
  destruct (Nat.ltb_spec
              (length (List.filter (fun option => JS.truthy (JS.trim option))
                                   (options formData))) 2) as [Hlt|_];
    [lia|].
  unfold bind, createPollWithOptions, revalidatePath, ret.
  rewrite Hfault, Hfresh. reflexivity.
Qed.

Lemma optionRows_poll_id (id : string) (texts : list string) (r : OptionRow) :
  In r (optionRows id texts) -> poll_id r = id.
Proof.
  unfold optionRows. intros Hin. apply list_elem_of_In in Hin.
  apply elem_of_lookup_imap in Hin as (i & text & -> & _). reflexivity.
Qed.

Lemma projectPolly_createPoll_succeeds
    (formData : CreatePollFormData) (w : World) :
  JS.truthy (JS.trim (title formData)) = true ->
  length (options formData) <= 10 ->
  2 <= length (List.filter (fun option => JS.truthy (JS.trim option))
                           (options formData)) ->
  (forall request, fault w request = None) ->
  polls w !! uuids w (issued w) = None ->
  (ProjectPolly.createPoll formData w).1
  = {| success := true; pollId := Some (uuids w (issued w));
       error := None |}.
Proof.
  intros Htitle Hcap Hoptions Hfault Hfresh. unfold ProjectPolly.createPoll.
  rewrite Htitle. cbn [negb].
  pose proof (List.filter_length_le
                (fun option => JS.truthy (JS.trim option))
                (options formData)) as Hle.
  destruct (Nat.ltb_spec (length (options formData)) 2) as [Hlt|_]; [lia|].
  destruct (Nat.ltb_spec 10 (length (options formData))) as [Hlt|_]; [lia|].
  destruct (Nat.ltb_spec
              (length (List.filter (fun option => JS.truthy (JS.trim option))
                                   (options formData))) 2) as [Hlt|_];
    [lia|].
  unfold bind, insertPoll, insertOptions, revalidatePath, ret.
  rewrite Hfault, Hfresh.
  cbn [fst snd logged withTables fault polls]. rewrite Hfault.
  rewrite (proj2 (forallb_forall _ _)); [reflexivity|].
  intros r Hin. apply optionRows_poll_id in Hin. rewrite Hin.
  apply bool_decide_eq_true. rewrite lookup_insert_eq. eauto.
Qed.

(** C10. Neither New-poll variant of createPoll consults the identity
    provider.  For every input, store and session: the run sends no
    getUser request, and every poll row it sends names the creator
    'demo-user' (New-poll/src/lib/actions/polls.ts), respectively
    'mock-user-id' (projects/alx-polly); replacing the session by any
    other leaves the result and the stored data the same; and when the
    result is a success, it carries the id of a poll that was not there
    before and is now stored with that constant as its creator.  In
    particular an input of ASCII texts that passes the checks is created
    also when nobody is signed in (a gateway that accepts every request
    and draws an unused id). *)
Theorem createPoll_never_consults_the_identity_provider
    (formData : CreatePollFormData) (w : World) (a : AuthResponse) :
  (NewPoll.createPoll formData (withSession a w) =
     ((NewPoll.createPoll formData w).1,
      withSession a (NewPoll.createPoll formData w).2) /\
   (exists sent,
      log (NewPoll.createPoll formData w).2 = (log w ++ sent)%list /\
      ~ In AuthGetUser sent /\
      (forall row texts,
         In (CreatePollWithOptions row texts) sent ->
         creator_id row = "demo-user")) /\
   (success (NewPoll.createPoll formData w).1 = true ->
    exists id row,
      pollId (NewPoll.createPoll formData w).1 = Some id /\
      polls w !! id = None /\
      polls (NewPoll.createPoll formData w).2 !! id = Some row /\
      creator_id row = "demo-user") /\
   (asciiData formData = true ->
    JS.truthy (JS.trim (title formData)) = true ->
    2 <= length (List.filter (fun option => JS.truthy (JS.trim option))
                             (options formData)) ->
    (forall request, fault w request = None) ->
    polls w !! uuids w (issued w) = None ->
    success (NewPoll.createPoll formData (withSession anonymous w)).1
    = true)) /\
  (ProjectPolly.createPoll formData (withSession a w) =
     ((ProjectPolly.createPoll formData w).1,
      withSession a (ProjectPolly.createPoll formData w).2) /\
   (exists sent,
      log (ProjectPolly.createPoll formData w).2 = (log w ++ sent)%list /\
      ~ In AuthGetUser sent /\
      (forall row,
         In (InsertPoll row) sent -> creator_id row = "mock-user-id")) /\
   (success (ProjectPolly.createPoll formData w).1 = true ->
    exists id row,
      pollId (ProjectPolly.createPoll formData w).1 = Some id /\
      polls w !! id = None /\
      polls (ProjectPolly.createPoll formData w).2 !! id = Some row /\
      creator_id row = "mock-user-id") /\
   (asciiData formData = true ->
    JS.truthy (JS.trim (title formData)) = true ->
    length (options formData) <= 10 ->
    2 <= length (List.filter (fun option => JS.truthy (JS.trim option))
                             (options formData)) ->
    (forall request, fault w request = None) ->
    polls w !! uuids w (issued w) = None ->
    success (ProjectPolly.createPoll formData (withSession anonymous w)).1
    = true)).
Proof.
  split; (split; [|split; [|split]]).
  - apply newPoll_createPoll_session.
  - apply newPoll_createPoll_requests.
  - apply newPoll_createPoll_creator.
  - intros _ Htitle Hoptions Hfault Hfresh.
    rewrite newPoll_createPoll_session. cbn [fst].
    rewrite newPoll_createPoll_succeeds by assumption. reflexivity.
  - apply projectPolly_createPoll_session.
  - apply projectPolly_createPoll_requests.
  - apply projectPolly_createPoll_creator.
  - intros _ Htitle Hcap Hoptions Hfault Hfresh.
    rewrite projectPolly_createPoll_session. cbn [fst].
    rewrite projectPolly_createPoll_succeeds by assumption. reflexivity.
Qed.

(** The test form on an empty store: created with nobody signed in, and
    stored under the constant creator. *)
Lemma createPoll_never_consults_witness :
  success
    (NewPoll.createPoll
       (Samples.pollData "Test Poll" ["Option 1"; "Option 2"])
       (withSession anonymous
          (Samples.emptyStore (signedIn Samples.alice) Samples.nothing))).1
  = true /\
  success
    (ProjectPolly.createPoll
       (Samples.pollData "Test Poll" ["Option 1"; "Option 2"])
       (withSession anonymous
          (Samples.emptyStore (signedIn Samples.alice) Samples.nothing))).1
  = true /\
  (exists id row,
     pollId
       (NewPoll.createPoll
          (Samples.pollData "Test Poll" ["Option 1"; "Option 2"])
          (Samples.emptyStore (signedIn Samples.alice) Samples.nothing)).1
     = Some id /\
     polls (Samples.emptyStore (signedIn Samples.alice) Samples.nothing)
       !! id = None /\
     polls
       (NewPoll.createPoll
          (Samples.pollData "Test Poll" ["Option 1"; "Option 2"])
          (Samples.emptyStore (signedIn Samples.alice) Samples.nothing)).2
       !! id = Some row /\
     creator_id row = "demo-user").
Proof.
  pose proof (createPoll_never_consults_the_identity_provider
                (Samples.pollData "Test Poll" ["Option 1"; "Option 2"])
                (Samples.emptyStore (signedIn Samples.alice) Samples.nothing)
                anonymous)
    as ((_ & _ & Hcreator & Hnew) & (_ & _ & _ & Hproject)).
  split; [|split].
  - apply Hnew;
      [reflexivity | reflexivity | vm_compute; lia | reflexivity
      | reflexivity].
  - apply Hproject;
      [reflexivity | reflexivity | vm_compute; lia | vm_compute; lia
      | reflexivity | reflexivity].
  - apply Hcreator. reflexivity.
Defined.

(** With nobody signed in, both variants create the poll and attribute it
    to their constant. *)
Example createPoll_succeeds_without_a_user :
  (NewPoll.createPoll
     (Samples.pollData "Test Poll" ["Option 1"; "Option 2"])
     (Samples.emptyStore anonymous Samples.nothing)).1
  = {| success := true; pollId := Some "poll-0"; error := None |} /\
  creator_id <$>
    polls (NewPoll.createPoll
             (Samples.pollData "Test Poll" ["Option 1"; "Option 2"])
             (Samples.emptyStore anonymous Samples.nothing)).2 !! "poll-0"
  = Some "demo-user" /\
  (ProjectPolly.createPoll
     (Samples.pollData "Test Poll" ["Option 1"; "Option 2"])
     (Samples.emptyStore anonymous Samples.nothing)).1
  = {| success := true; pollId := Some "poll-0"; error := None |} /\
  creator_id <$>
    polls (ProjectPolly.createPoll
             (Samples.pollData "Test Poll" ["Option 1"; "Option 2"])
             (Samples.emptyStore anonymous Samples.nothing)).2 !! "poll-0"
  = Some "mock-user-id".
Proof. repeat split; vm_compute; reflexivity. Qed.

End NewPollCreate.

(** *** The results page *)

Section Tally.

Import Results.

(** C9, counterexample: the poll "p" has the options A, B and C and the
    votes A, A, B, for which the claim gives the tally {A: 2, B: 1, C: 0}.
    The results page of "p" shows five rows, JavaScript to Go with the
    counts 45 to 12, and a total of 132: none of the poll's options and
    none of its votes. *)
Lemma results_page_ignores_the_votes :
  PollActions.options <$> PollActions.polls MoreSamples.tallyWorld !! "p"
  = Some ["A"; "B"; "C"] /\
  map PollActions.option_index (PollActions.votes MoreSamples.tallyWorld)
  = [0%Z; 0%Z; 1%Z] /\
  Spec.getTally "p" MoreSamples.tallyWorld = [(0, 2); (1, 1); (2, 0)] /\
  map (fun r => (option_text r, votes r)) (rows (ResultsPage "p" None))
  = [ ("JavaScript", Num (JS.Number 45)); ("Python", Num (JS.Number 32));
      ("TypeScript", Num (JS.Number 28)); ("Java", Num (JS.Number 15));
      ("Go", Num (JS.Number 12)) ] /\
  total (ResultsPage "p" None) = JS.Number 132 /\
  ~ In "A" (map option_text (rows (ResultsPage "p" None))).
Proof.
  repeat split; try (vm_compute; reflexivity).
  cbn. intuition discriminate.
Qed.

(** C9, amended.  For every poll id and every vote parameter, the results
    page enumerates the options of its own poll, JavaScript, Python,
    TypeScript, Java and Go, each once and in this order, with the counts
    45, 32, 28, 15 and 12 of its own results and their total 132.  The
    percentage of each row, Math.round((count / totalVotes) * 100) in
    double arithmetic, is round(100 * count / totalVotes): 34, 24, 21, 11
    and 9.  The row that the vote parameter names carries the check mark,
    and the link back leads to the poll of the id. *)
Theorem results_page_tally (id : string) (userVote : option string) :
  map option_text (rows (ResultsPage id userVote)) = mockPoll_options /\
  List.NoDup (map option_text (rows (ResultsPage id userVote))) /\
  map votes (rows (ResultsPage id userVote))
  = map (fun count => Num (JS.Number count)) [45; 32; 28; 15; 12]%Z /\
  total (ResultsPage id userVote) = JS.Number 132 /\
  map percent (rows (ResultsPage id userVote))
  = map (fun count => Some (spec_percentage count 132))
        [45; 32; 28; 15; 12]%Z /\
  map percent (rows (ResultsPage id userVote))
  = map Some [34; 24; 21; 11; 9]%Z /\
  (forall r, In r (rows (ResultsPage id userVote)) ->
     (chosen r = true <-> userVote = Some (option_text r))) /\
  voteAgain (ResultsPage id userVote) = "/polls/" ++ id.
Proof.
  assert (Hoptions : map option_text (rows (ResultsPage id userVote))
                     = mockPoll_options).
  { cbn [ResultsPage rows]. rewrite map_map. cbn [row option_text].
    apply map_id. }
  split; [exact Hoptions|]. split.
  { rewrite Hoptions. repeat constructor; cbn [In]; intuition discriminate. }
  split; [vm_compute; reflexivity|].
  split; [vm_compute; reflexivity|].
  split; [vm_compute; reflexivity|].
  split; [vm_compute; reflexivity|].
  split; [|reflexivity].
  intros r Hin. cbn [ResultsPage rows] in Hin.
  apply in_map_iff in Hin as (option & <- & _). cbn [row chosen option_text].
  destruct userVote as [vote|]; [|split; discriminate].
  rewrite String.eqb_eq. split; [intros -> | intros [= ->]]; reflexivity.
Qed.

End Tally.

(** ** Further properties of the code *)

(** *** String.prototype.trim *)

Section Trim.

Import JS.

Lemma trimStart_head (s : string) :
  trimStart s = "" \/
  exists a rest, trimStart s = String a rest /\ isWhiteSpace a = false.
Proof.
  induction s as [|a rest IH]; [left; reflexivity|].
  cbn [trimStart]. destruct (isWhiteSpace a) eqn:Ha; [exact IH|].
  right. exists a, rest. split; [reflexivity | exact Ha].
Qed.

Lemma trimStart_blank (s : string) :
  trimStart s = "" <-> RegExp.every isWhiteSpace s = true.
Proof.
  induction s as [|a rest IH]; [split; reflexivity|].
  cbn [trimStart RegExp.every].
  destruct (isWhiteSpace a); cbn [andb]; [exact IH|].
  split; discriminate.
Qed.

Lemma trimEnd_cons (a : ascii) (rest : string) :
  trimEnd (String a rest) =
  match trimEnd rest with
  | EmptyString => if isWhiteSpace a then EmptyString else String a EmptyString
  | kept => String a kept
  end.
Proof. reflexivity. Qed.

Lemma trimEnd_idempotent (s : string) : trimEnd (trimEnd s) = trimEnd s.
Proof.
  induction s as [|a rest IH]; [reflexivity|].
  rewrite trimEnd_cons. destruct (trimEnd rest) as [|b kept] eqn:Hrest.
  - destruct (isWhiteSpace a) eqn:Ha; [reflexivity|].
    rewrite trimEnd_cons. cbn [trimEnd]. rewrite Ha. reflexivity.
  - rewrite trimEnd_cons, IH. reflexivity.
Qed.

Lemma trimEnd_head (a : ascii) (rest : string) :
  isWhiteSpace a = false ->
  exists kept, trimEnd (String a rest) = String a kept.
Proof.
  intros Ha. rewrite trimEnd_cons. destruct (trimEnd rest) as [|b kept].
  - rewrite Ha. exists "". reflexivity.
  - exists (String b kept). reflexivity.
Qed.

(** Trimming twice is trimming once. *)
Lemma trim_idempotent (s : string) : trim (trim s) = trim s.
Proof.
  unfold trim. destruct (trimStart_head s) as [->|(a & rest & -> & Ha)].
  - reflexivity.
  - destruct (trimEnd_head a rest Ha) as [kept Hkept]. rewrite Hkept.
    cbn [trimStart]. rewrite Ha. rewrite <- Hkept. apply trimEnd_idempotent.
Qed.

(** The strings that trim to nothing are the strings of white space. *)
Lemma trim_blank (s : string) :
  trim s = "" <-> RegExp.every isWhiteSpace s = true.
Proof.
  rewrite <- trimStart_blank. unfold trim.
  destruct (trimStart_head s) as [->|(a & rest & -> & Ha)].
  - split; reflexivity.
  - destruct (trimEnd_head a rest Ha) as [kept ->]. split; discriminate.
Qed.

(** A string without white space is its own trim. *)
Lemma trimEnd_no_space (s : string) :
  RegExp.every (fun a => negb (isWhiteSpace a)) s = true -> trimEnd s = s.
Proof.
  induction s as [|a rest IH]; [reflexivity|].
  cbn [RegExp.every]. intros [Ha Hrest]%andb_true_iff.
  rewrite trimEnd_cons, (IH Hrest).
  destruct rest; [|reflexivity].
  apply negb_true_iff in Ha. rewrite Ha. reflexivity.
Qed.

Lemma trim_no_space (s : string) :
  RegExp.every (fun a => negb (isWhiteSpace a)) s = true -> trim s = s.
Proof.
  intros Hs. unfold trim.
  assert (Hstart : trimStart s = s).
  { destruct s as [|a rest]; [reflexivity|].
    cbn [RegExp.every] in Hs. apply andb_true_iff in Hs as [Ha _].
    apply negb_true_iff in Ha. cbn [trimStart]. rewrite Ha. reflexivity. }
  rewrite Hstart. apply trimEnd_no_space, Hs.
Qed.

Lemma truthy_empty (s : string) : truthy s = false <-> s = "".
Proof. destruct s; split; (reflexivity || discriminate). Qed.

Lemma truthy_nonempty (s : string) : truthy s = true <-> s <> "".
Proof. destruct s; split; (reflexivity || discriminate || congruence). Qed.

End Trim.

(** *** The poll actions: the owner's delete and update *)

Section OwnerActions.

Import Supabase PollActions.

Lemma kept_others id uid (table : gmap string PollRow) (P : PollRow) :
  table !! id = Some P -> user_id P = uid ->
  filter (fun kv => matches [EqId id; EqUserId uid] kv.1 kv.2 = false) table
  = delete id table.
Proof.
  intros HP Howner. apply map_eq. intros key.
  destruct (decide (key = id)) as [->|Hne].
  - rewrite lookup_delete_eq. apply map_lookup_filter_None. right.
    intros row Hrow Hm. cbn [fst snd] in Hm.
    rewrite HP in Hrow. injection Hrow as <-.
    assert (Hyes : matches [EqId id; EqUserId uid] id P = true)
      by (apply matches_scope; split; [reflexivity | exact Howner]).
    rewrite Hyes in Hm. discriminate.
  - rewrite lookup_delete_ne by congruence.
    destruct (table !! key) as [row|] eqn:Hrow.
    + apply map_lookup_filter_Some. split; [exact Hrow|]. cbn [fst snd].
      destruct (matches [EqId id; EqUserId uid] key row) eqn:Hm;
        [|reflexivity].
      apply matches_scope in Hm as [-> _]. congruence.
    + apply map_lookup_filter_None. left. exact Hrow.
Qed.

Lemma removed_lookup id uid (table : gmap string PollRow) (P : PollRow)
    (key : string) :
  table !! id = Some P -> user_id P = uid ->
  bool_decide
    (filter (fun kv => matches [EqId id; EqUserId uid] kv.1 kv.2 = true)
            table !! key = None)
  = negb (String.eqb key id).
Proof.
  intros HP Howner. destruct (String.eqb_spec key id) as [->|Hne]; cbn [negb].
  - apply bool_decide_eq_false. intros Hnone.
    apply map_lookup_filter_None in Hnone as [Hnone|Hnone]; [congruence|].
    apply (Hnone P HP). cbn [fst snd]. apply matches_scope.
    split; [reflexivity | exact Howner].
  - apply bool_decide_eq_true. apply map_lookup_filter_None.
    destruct (table !! key) as [row|] eqn:Hrow; [right | left; reflexivity].
    intros row' Hrow' Hm. cbn [fst snd] in Hm.
    apply matches_scope in Hm as [-> _]. congruence.
Qed.

(** The owner's delete removes the poll and the votes on it, and nothing
    else; getPollById no longer finds the poll. *)
Theorem deletePoll_by_owner_removes_poll_and_votes
    (w : World) (id : string) (A : User) (P : PollRow) :
  session w = signedIn A ->
  polls w !! id = Some P ->
  user_id P = Supabase.id A ->
  fault w (DeletePolls [EqId id; EqUserId (Supabase.id A)]) = None ->
  error (deletePoll id w).1 = None /\
  polls (deletePoll id w).2 = delete id (polls w) /\
  votes (deletePoll id w).2
  = List.filter (fun v => negb (String.eqb (poll_id v) id)) (votes w) /\
  poll (getPollById id (deletePoll id w).2).1 = None /\
  pollError (getPollById id (deletePoll id w).2).1 <> None.
Proof.
  intros Hsession HP Howner Hfault.
  assert (Hrun : deletePoll id w =
    (ok, logged (RevalidatePath "/polls")
           (withTables (delete id (polls w))
              (List.filter (fun v => negb (String.eqb (poll_id v) id))
                           (votes w))
              (issued w)
              (logged (DeletePolls [EqId id; EqUserId (Supabase.id A)])
                 (logged AuthGetUser w))))).
  { unfold deletePoll, bind, getUser, deletePolls, revalidatePath, ret.
    rewrite Hsession. cbn [signedIn userError user].
    cbn [logged fault]. rewrite Hfault.
    cbn [logged polls votes issued].
    rewrite (kept_others _ _ _ P HP Howner).
    erewrite List.filter_ext; [reflexivity|].
    intros v. cbn beta. apply (removed_lookup _ _ _ P); assumption. }
  rewrite Hrun. cbn [fst snd error ok logged withTables polls votes].
  split; [reflexivity|]. split; [reflexivity|]. split; [reflexivity|].
  rewrite getPollById_answer. cbn [logged withTables fault polls].
  rewrite lookup_delete_eq.
  destruct (fault w (SelectPollSingle [EqId id]));
    cbn [poll pollError]; split; (reflexivity || discriminate).
Qed.

(** Alice deletes her poll "p1", on which Bob has voted: Bob's poll and
    the vote on it stay. *)
Lemma deletePoll_by_owner_witness :
  polls (deletePoll "p1"
           (MoreSamples.votedWorld (signedIn Samples.alice))).2
  = {[ "p2" := MoreSamples.pollOfBob ]} /\
  votes (deletePoll "p1"
           (MoreSamples.votedWorld (signedIn Samples.alice))).2
  = [ {| poll_id := "p2"; vote_user_id := Some "alice-id";
         option_index := 1 |} ].
Proof.
  pose proof (deletePoll_by_owner_removes_poll_and_votes
                (MoreSamples.votedWorld (signedIn Samples.alice))
                "p1" Samples.alice Samples.pollOfAlice
                eq_refl eq_refl eq_refl eq_refl)
    as (_ & Hpolls & Hvotes & _).
  split; [rewrite Hpolls | rewrite Hvotes]; vm_compute; reflexivity.
Defined.

(** Without a signed-in user, deletePoll and updatePoll send nothing to
    the polls table.  deletePoll answers with its own message also when the
    identity provider reports an error; updatePoll passes that error on. *)
Theorem mutations_need_a_session
    (w : World) (id : string) (formData : FormData) :
  user (session w) = None \/ userError (session w) <> None ->
  deletePoll id w
  = (failed "You must be logged in to delete a poll.", logged AuthGetUser w)
  /\
  polls (updatePoll id formData w).2 = polls w /\
  votes (updatePoll id formData w).2 = votes w /\
  error (updatePoll id formData w).1 =
    Some match updateForm formData, userError (session w) with
         | None, _ => "Please provide a question and at least two options."
         | Some _, Some message => message
         | Some _, None => "You must be logged in to update a poll."
         end /\
  log (updatePoll id formData w).2 =
    (log w ++ match updateForm formData with
              | None => []
              | Some _ => [AuthGetUser]
              end)%list.
Proof.
  intros Hnobody. split.
  - unfold deletePoll, bind, getUser, ret.
    destruct (userError (session w)) as [message|]; [reflexivity|].
    destruct (user (session w)) as [u|]; [|reflexivity].
    destruct Hnobody as [H|H]; [discriminate H | contradiction].
  - unfold updatePoll.
    destruct (updateForm formData) as [[q opts]|].
    + unfold bind, getUser, ret.
      destruct (userError (session w)) as [message|];
        [repeat split|].
      destruct (user (session w)) as [u|]; [|repeat split].
      destruct Hnobody as [H|H]; [discriminate H | contradiction].
    + cbn [ret fst snd failed error]. rewrite app_nil_r. repeat split.
Qed.

(** Nobody is signed in. *)
Lemma mutations_need_a_session_witness :
  error (deletePoll "p1" (Samples.world anonymous)).1
  = Some "You must be logged in to delete a poll." /\
  polls (updatePoll "p1" (Samples.form "x" ["Tabs"; "Spaces"])
                    (Samples.world anonymous)).2
  = polls (Samples.world anonymous).
Proof.
  pose proof (mutations_need_a_session (Samples.world anonymous) "p1"
                (Samples.form "x" ["Tabs"; "Spaces"])
                (or_introl eq_refl)) as (Hdelete & Hpolls & _).
  split; [rewrite Hdelete; reflexivity | exact Hpolls].
Defined.

Lemma updated_owner q opts id uid (table : gmap string PollRow) (P : PollRow) :
  table !! id = Some P -> user_id P = uid ->
  map_imap
    (fun key row =>
       Some (if matches [EqId id; EqUserId uid] key row
             then {| user_id := user_id row; question := stored q;
                     options := map stored opts; endDate := endDate row;
                     settings := settings row |}
             else row)) table
  = <[id := {| user_id := user_id P; question := stored q;
               options := map stored opts; endDate := endDate P;
               settings := settings P |}]> table.
Proof.
  intros HP Howner. apply map_eq. intros key. rewrite map_lookup_imap.
  destruct (decide (key = id)) as [->|Hne].
  - rewrite lookup_insert_eq, HP. cbn [mbind option_bind].
    assert (Hyes : matches [EqId id; EqUserId uid] id P = true)
      by (apply matches_scope; split; [reflexivity | exact Howner]).
    rewrite Hyes. reflexivity.
  - rewrite lookup_insert_ne by congruence.
    destruct (table !! key) as [row|] eqn:Hrow; [|reflexivity].
    cbn [mbind option_bind].
    destruct (matches [EqId id; EqUserId uid] key row) eqn:Hm;
      [|reflexivity].
    apply matches_scope in Hm as [-> _]. congruence.
Qed.

(** The owner's update replaces the question and the options of the poll
    by the submitted ones, exactly as submitted; the owner, the other
    columns, the other polls and the votes stay. *)
Theorem updatePoll_by_owner_replaces_question_and_options
    (w : World) (pollId : string) (formData : FormData) (A : User)
    (P : PollRow) (q : FormDataEntryValue) (opts : list FormDataEntryValue) :
  session w = signedIn A ->
  polls w !! pollId = Some P ->
  user_id P = Supabase.id A ->
  updateForm formData = Some (q, opts) ->
  fault w (UpdatePolls q opts [EqId pollId; EqUserId (Supabase.id A)])
  = None ->
  error (updatePoll pollId formData w).1 = None /\
  polls (updatePoll pollId formData w).2
  = <[pollId := {| user_id := user_id P; question := stored q;
                   options := map stored opts; endDate := endDate P;
                   settings := settings P |}]> (polls w) /\
  votes (updatePoll pollId formData w).2 = votes w.
Proof.
  intros Hsession HP Howner Hform Hfault.
  unfold updatePoll. rewrite Hform.
  unfold bind, getUser, updatePolls, ret.
  rewrite Hsession. cbn [signedIn userError user logged fault].
  rewrite Hfault. cbn [fst snd logged withTables polls votes issued error ok].
  rewrite (updated_owner _ _ _ _ _ P HP Howner). repeat split.
Qed.

(** Alice renames her poll. *)
Lemma updatePoll_by_owner_witness :
  question <$>
    polls (updatePoll "p1" (Samples.form "Vim or Emacs?" ["Vim"; "Emacs"])
                      (Samples.world (signedIn Samples.alice))).2 !! "p1"
  = Some "Vim or Emacs?".
Proof.
  pose proof (updatePoll_by_owner_replaces_question_and_options
                (Samples.world (signedIn Samples.alice)) "p1"
                (Samples.form "Vim or Emacs?" ["Vim"; "Emacs"])
                Samples.alice Samples.pollOfAlice
                (Text "Vim or Emacs?") [Text "Vim"; Text "Emacs"]
                eq_refl eq_refl eq_refl eq_refl eq_refl)
    as (_ & Hpolls & _).
  rewrite Hpolls. reflexivity.
Defined.

End OwnerActions.

(** *** The poll actions: what createPoll stores *)

Section StoredPolls.

Import Supabase PollActions PollQueries.

Lemma sanitizedOptions_clean (formData : FormData) :
  Forall clean (sanitizedOptions formData).
Proof.
  apply List.Forall_forall. intros o Hin. unfold sanitizedOptions in Hin.
  apply List.filter_In in Hin as [Hin Hfull].
  apply in_map_iff in Hin as (v & <- & _).
  destruct v as [s|name]; [|discriminate Hfull].
  split; [apply truthy_nonempty, Hfull | apply trim_idempotent].
Qed.

(** What the sanitisation lets through. *)
Lemma sanitize_accepts (formData : FormData) (q : string)
    (opts : list string) :
  sanitize formData = inr (q, opts) ->
  exists raw,
    get "question" formData = Some (Text raw) /\
    q = JS.trim raw /\ q <> "" /\
    opts = sanitizedOptions formData /\ 2 <= length opts.
Proof.
  unfold sanitize.
  destruct (get "question" formData) as [[raw|name]|]; try discriminate.
  destruct (JS.truthy (JS.trim raw)) eqn:Hq; cbn [negb orb];
    [|discriminate].
  destruct (Nat.ltb_spec (length (sanitizedOptions formData)) 2) as [|Hge];
    [discriminate|].
  intros H. injection H as <- <-. exists raw.
  split; [reflexivity|]. split; [reflexivity|].
  split; [apply truthy_nonempty, Hq|]. split; [reflexivity | exact Hge].
Qed.

(** A poll that createPoll has stored is found by getPollById under the
    id the database drew, with the signed-in user as its owner, the
    trimmed question and the sanitised options (the submitted texts,
    trimmed, without the empty ones and the files); the polls that were
    there before and the votes are untouched.  The form holds ASCII
    texts. *)
Theorem createPoll_then_getPollById
    (w : World) (formData : FormData) (A : User) (raw : string) :
  asciiForm formData = true ->
  session w = signedIn A ->
  get "question" formData = Some (Text raw) ->
  JS.trim raw <> "" ->
  2 <= length (sanitizedOptions formData) ->
  fault w (InsertPoll (Supabase.id A) (JS.trim raw)
                      (sanitizedOptions formData)) = None ->
  polls w !! uuids w (issued w) = None ->
  error (createPoll formData w).1 = None /\
  polls (createPoll formData w).2
  = <[uuids w (issued w) :=
        {| user_id := Supabase.id A; question := JS.trim raw;
           options := sanitizedOptions formData;
           endDate := None; settings := None |}]> (polls w) /\
  votes (createPoll formData w).2 = votes w /\
  (fault w (SelectPollSingle [EqId (uuids w (issued w))]) = None ->
   (getPollById (uuids w (issued w)) (createPoll formData w).2).1
   = {| poll :=
          Some (uuids w (issued w),
                {| user_id := Supabase.id A; question := JS.trim raw;
                   options := sanitizedOptions formData;
                   endDate := None; settings := None |});
        pollError := None |}) /\
  (forall id P,
     polls w !! id = Some P ->
     polls (createPoll formData w).2 !! id = Some P).
Proof.
  intros _ Hsession Hquestion Hfull Hoptions Hfault Hfresh.
  assert (Hform : sanitize formData
                  = inr (JS.trim raw, sanitizedOptions formData)).
  { unfold sanitize. rewrite Hquestion.
    apply truthy_nonempty in Hfull. rewrite Hfull. cbn [negb orb].
    destruct (Nat.ltb_spec (length (sanitizedOptions formData)) 2);
      [lia | reflexivity]. }
  rewrite createPoll_run, Hform, Hsession.
  cbn [signedIn userError user]. cbv zeta. rewrite Hfault, Hfresh.
  cbn [fst snd error ok logged withTables polls votes].
  split; [reflexivity|]. split; [reflexivity|]. split; [reflexivity|]. split.
  - intros Hselect. rewrite getPollById_answer.
    cbn [logged withTables fault polls]. rewrite Hselect, lookup_insert_eq.
    reflexivity.
  - intros id P HP. rewrite lookup_insert_ne; [exact HP|].
    intros <-. rewrite Hfresh in HP. discriminate HP.
Qed.

(** Alice creates a poll from a padded question and a blank option. *)
Lemma createPoll_then_getPollById_witness :
  (getPollById "poll-0"
     (createPoll (Samples.form "  Red or blue? " ["Red "; "   "; " Blue"])
                 (Samples.world (signedIn Samples.alice))).2).1
  = {| poll :=
         Some ("poll-0",
               {| user_id := "alice-id"; question := "Red or blue?";
                  options := ["Red"; "Blue"]; endDate := None;
                  settings := None |});
       pollError := None |}.
Proof.
  pose proof (createPoll_then_getPollById
                (Samples.world (signedIn Samples.alice))
                (Samples.form "  Red or blue? " ["Red "; "   "; " Blue"])
                Samples.alice "  Red or blue? ")
    as H.
  destruct H as (_ & _ & _ & Hget & _);
    [reflexivity | reflexivity | reflexivity | discriminate
    | vm_compute; lia | reflexivity | reflexivity |].
  apply Hget. reflexivity.
Defined.

(** createPoll keeps the table well formed: if every stored poll has a
    question and at least two options, all of them non-empty and without
    white space at either end, the same holds after any createPoll. *)
Theorem createPoll_keeps_polls_well_formed
    (w : World) (formData : FormData) :
  map_Forall (fun _ row => wellFormed row) (polls w) ->
  map_Forall (fun _ row => wellFormed row) (polls (createPoll formData w).2).
Proof.
  intros Hall. rewrite createPoll_run.
  destruct (sanitize formData) as [message|[q opts]] eqn:Hform;
    [exact Hall|].
  destruct (userError (session w)); [exact Hall|].
  destruct (user (session w)) as [u|]; [|exact Hall].
  cbv zeta. destruct (fault w (InsertPoll (Supabase.id u) q opts));
    [exact Hall|].
  destruct (polls w !! uuids w (issued w)) eqn:Hfresh; [exact Hall|].
  cbn [snd logged withTables polls].
  apply map_Forall_insert_2; [|exact Hall].
  apply sanitize_accepts in Hform as (raw & _ & -> & Hq & -> & Hlen).
  split; [|split].
  - cbn [question]. split; [exact Hq | apply trim_idempotent].
  - exact Hlen.
  - apply sanitizedOptions_clean.
Qed.

(** Alice's poll is well formed, and so is the poll she creates next. *)
Lemma createPoll_keeps_polls_well_formed_witness :
  exists row,
    polls (createPoll (Samples.form " Red or blue? " ["Red "; " Blue"])
                      (Samples.world (signedIn Samples.alice))).2 !! "poll-0"
    = Some row /\ wellFormed row.
Proof.
  eexists. split; [vm_compute; reflexivity|].
  refine (createPoll_keeps_polls_well_formed
            (Samples.world (signedIn Samples.alice))
            (Samples.form " Red or blue? " ["Red "; " Blue"]) _
            "poll-0" _ _); [|vm_compute; reflexivity].
  intros key row Hrow.
  change (({[ "p1" := Samples.pollOfAlice ]} : gmap string PollRow) !! key
          = Some row) in Hrow.
  apply lookup_singleton_Some in Hrow as [_ <-].
  split; [|split].
  - split; [discriminate | reflexivity].
  - cbn. lia.
  - repeat constructor; discriminate.
Defined.

(** updatePoll does not trim: a question of white space only, which
    createPoll rejects, is stored by the owner's updatePoll as it is, and
    the stored poll is no longer well formed. *)
Theorem updatePoll_stores_a_blank_question
    (w : World) (pollId : string) (formData : FormData) (A : User)
    (P : PollRow) (q : string) :
  session w = signedIn A ->
  polls w !! pollId = Some P ->
  user_id P = Supabase.id A ->
  get "question" formData = Some (Text q) ->
  q <> "" -> JS.trim q = "" ->
  2 <= length (List.filter truthy (getAll "options" formData)) ->
  fault w (UpdatePolls (Text q)
                       (List.filter truthy (getAll "options" formData))
                       [EqId pollId; EqUserId (Supabase.id A)]) = None ->
  createPoll formData w
  = (failed "Please provide a question and at least two options.", w) /\
  error (updatePoll pollId formData w).1 = None /\
  question <$> polls (updatePoll pollId formData w).2 !! pollId = Some q /\
  (forall row,
     polls (updatePoll pollId formData w).2 !! pollId = Some row ->
     ~ wellFormed row).
Proof.
  intros Hsession HP Howner Hq Hfull Hblank Hopts Hfault.
  assert (Hform : updateForm formData
                  = Some (Text q,
                          List.filter truthy (getAll "options" formData))).
  { unfold updateForm. rewrite Hq. cbn [truthy].
    apply truthy_nonempty in Hfull. rewrite Hfull. cbn [negb orb].
    destruct (Nat.ltb_spec
                (length (List.filter truthy (getAll "options" formData))) 2);
      [lia | reflexivity]. }
  assert (Hrun : error (updatePoll pollId formData w).1 = None /\
                 polls (updatePoll pollId formData w).2
                 = <[pollId := {| user_id := user_id P; question := q;
                                  options :=
                                    map stored
                                      (List.filter truthy
                                         (getAll "options" formData));
                                  endDate := endDate P;
                                  settings := settings P |}]> (polls w)).
  { unfold updatePoll. rewrite Hform.
    unfold bind, getUser, updatePolls, ret.
    rewrite Hsession. cbn [signedIn userError user logged fault].
    rewrite Hfault.
    cbn [fst snd logged withTables polls votes issued error ok].
    rewrite (updated_owner _ _ _ _ _ P HP Howner). split; reflexivity. }
  destruct Hrun as [Herror Hpolls].
  split; [|split; [exact Herror|split]].
  - rewrite createPoll_run. unfold sanitize. rewrite Hq, Hblank.
    reflexivity.
  - rewrite Hpolls, lookup_insert_eq. reflexivity.
  - intros row Hrow. rewrite Hpolls, lookup_insert_eq in Hrow.
    injection Hrow as <-. intros [[_ Htrim] _]. cbn [question stored] in Htrim.
    congruence.
Qed.

(** Alice replaces her question by three spaces. *)
Lemma updatePoll_stores_a_blank_question_witness :
  question <$>
    polls (updatePoll "p1" (Samples.form "   " ["Tabs"; "Spaces"])
                      (Samples.world (signedIn Samples.alice))).2 !! "p1"
  = Some "   ".
Proof.
  pose proof (updatePoll_stores_a_blank_question
                (Samples.world (signedIn Samples.alice)) "p1"
                (Samples.form "   " ["Tabs"; "Spaces"])
                Samples.alice Samples.pollOfAlice "   "
                eq_refl eq_refl eq_refl eq_refl) as H.
  destruct H as (_ & _ & Hstored & _);
    [discriminate | reflexivity | vm_compute; lia | reflexivity |].
  exact Hstored.
Defined.

End StoredPolls.

(** *** The poll actions: getUserPolls *)

Section UserPolls.

Import Supabase PollActions PollQueries.

Lemma insertNewest_permutation created_at p l :
  Permutation (insertNewest created_at p l) (p :: l).
Proof.
  induction l as [|q rest IH]; [reflexivity|].
  cbn [insertNewest]. destruct (created_at q.1 <=? created_at p.1)%Z.
  - reflexivity.
  - rewrite IH. apply perm_swap.
Qed.

Lemma newestFirst_permutation created_at l :
  Permutation (newestFirst created_at l) l.
Proof.
  induction l as [|p rest IH]; [reflexivity|].
  cbn [newestFirst fold_right]. fold (newestFirst created_at rest).
  rewrite insertNewest_permutation, IH. reflexivity.
Qed.

Lemma insertNewest_sorted created_at p l :
  StronglySorted (fun a b => (created_at b.1 <= created_at a.1)%Z) l ->
  StronglySorted (fun a b => (created_at b.1 <= created_at a.1)%Z)
                 (insertNewest created_at p l).
Proof.
  induction l as [|q rest IH]; intros Hsorted.
  - repeat constructor.
  - cbn [insertNewest].
    apply StronglySorted_inv in Hsorted as [Hrest Hq].
    destruct (Z.leb_spec (created_at q.1) (created_at p.1)) as [Hle|Hgt].
    + constructor; [constructor; assumption|].
      constructor; [exact Hle|].
      eapply List.Forall_impl; [|exact Hq]. cbn beta. intros r Hr. lia.
    + constructor; [apply IH, Hrest|].
      rewrite insertNewest_permutation.
      constructor; [lia | exact Hq].
Qed.

Lemma newestFirst_sorted created_at l :
  StronglySorted (fun a b => (created_at b.1 <= created_at a.1)%Z)
                 (newestFirst created_at l).
Proof.
  induction l as [|p rest IH]; [constructor|].
  cbn [newestFirst fold_right]. apply insertNewest_sorted, IH.
Qed.

(** getUserPolls answers a signed-in user with exactly the polls that user
    owns, each once, the newest first, and changes no table; without a
    user it answers "Not authenticated" with no poll.  An error that the
    identity provider reports beside the user is not looked at. *)
Theorem getUserPolls_returns_the_users_polls_newest_first
    (created_at : string -> Z) (w : World) :
  (getUserPolls created_at None w).2 = logged AuthGetUser w /\
  match user (session w) with
  | None =>
      (getUserPolls created_at None w).1
      = {| userPolls := []; userPollsError := Some "Not authenticated" |}
  | Some A =>
      userPollsError (getUserPolls created_at None w).1 = None /\
      (forall id row,
         In (id, row) (userPolls (getUserPolls created_at None w).1) <->
         polls w !! id = Some row /\ user_id row = Supabase.id A) /\
      NoDup (userPolls (getUserPolls created_at None w).1) /\
      StronglySorted (fun a b => (created_at b.1 <= created_at a.1)%Z)
                     (userPolls (getUserPolls created_at None w).1)
  end.
Proof.
  unfold getUserPolls, bind, getUser, ret.
  destruct (user (session w)) as [A|]; cbn [fst snd userPolls userPollsError];
    [|split; reflexivity].
  split; [reflexivity|]. split; [reflexivity|]. unfold selectByOwner.
  split; [|split].
  - intros id row. split.
    + intros Hin.
      apply (Permutation_in _ (newestFirst_permutation _ _)) in Hin.
      apply List.filter_In in Hin as [Hin Howner]. cbn [fst snd] in Howner.
      apply String.eqb_eq in Howner.
      apply list_elem_of_In, elem_of_map_to_list in Hin.
      split; assumption.
    + intros [Hrow Howner].
      apply (Permutation_in _
               (Permutation_sym (newestFirst_permutation _ _))).
      apply List.filter_In. cbn [fst snd].
      split; [|apply String.eqb_eq, Howner].
      apply list_elem_of_In, elem_of_map_to_list, Hrow.
  - apply NoDup_ListNoDup.
    eapply Permutation_NoDup;
      [symmetry; apply newestFirst_permutation|].
    apply List.NoDup_filter, NoDup_ListNoDup, NoDup_map_to_list.
  - apply newestFirst_sorted.
Qed.

(** Bob asks for his polls: "p2", not Alice's "p1". *)
Lemma getUserPolls_witness :
  userPolls (getUserPolls MoreSamples.createdAt None
               (MoreSamples.votedWorld (signedIn Samples.bob))).1
  = [ ("p2", MoreSamples.pollOfBob) ] /\
  ~ In ("p1", Samples.pollOfAlice)
       (userPolls (getUserPolls MoreSamples.createdAt None
                     (MoreSamples.votedWorld (signedIn Samples.bob))).1).
Proof.
  pose proof (getUserPolls_returns_the_users_polls_newest_first
                MoreSamples.createdAt
                (MoreSamples.votedWorld (signedIn Samples.bob)))
    as (_ & _ & Hown & _).
  split; [vm_compute; reflexivity|].
  intros Hin. apply Hown in Hin as [_ Howner]. discriminate Howner.
Defined.

End UserPolls.

(** *** The New-poll actions: the rows of a created poll *)

Section OptionRows.

Import NewPollStore.

Lemma optionRows_columns (id : string) (texts : list string) :
  map text (optionRows id texts) = texts /\
  map order_index (optionRows id texts) = seq 0 (length texts) /\
  Forall (fun row => poll_id row = id) (optionRows id texts).
Proof.
  unfold optionRows. split; [|split].
  - apply list_eq. intros i. rewrite list_lookup_fmap, list_lookup_imap.
    destruct (texts !! i); reflexivity.
  - apply list_eq. intros i. rewrite list_lookup_fmap, list_lookup_imap.
    destruct (texts !! i) as [t|] eqn:Ht; cbn.
    + symmetry. apply lookup_seq. split; [reflexivity|].
      apply lookup_lt_is_Some. eauto.
    + symmetry. apply lookup_seq_ge. apply lookup_ge_None, Ht.
  - apply List.Forall_forall. intros row Hin.
    exact (optionRows_poll_id id texts row Hin).
Qed.

(** When createPoll of projects/alx-polly succeeds, the store has gained
    the poll, with the trimmed title and 'mock-user-id' as its creator,
    and one option row per non-blank option: in the order of the form,
    trimmed, numbered from 0, and all pointing to the new poll.  Blank
    options are dropped without an error.  The form holds ASCII texts. *)
Theorem createPoll_stores_one_row_per_option
    (formData : CreatePollFormData) (w : World) (id : string) :
  asciiData formData = true ->
  success (ProjectPolly.createPoll formData w).1 = true ->
  pollId (ProjectPolly.createPoll formData w).1 = Some id ->
  let texts :=
    map JS.trim (List.filter (fun option => JS.truthy (JS.trim option))
                             (options formData)) in
  polls (ProjectPolly.createPoll formData w).2
  = <[id := {| poll_title := JS.trim (title formData);
               poll_description := descriptionOrNull formData;
               creator_id := "mock-user-id";
               is_public := isPublic formData;
               allow_multiple_votes := allowMultipleVotes formData;
               allow_anonymous_votes := allowAnonymousVotes formData |}]>
      (polls w) /\
  poll_options (ProjectPolly.createPoll formData w).2
  = (poll_options w ++ optionRows id texts)%list /\
  map text (optionRows id texts) = texts /\
  map order_index (optionRows id texts) = seq 0 (length texts) /\
  Forall (fun row => poll_id row = id) (optionRows id texts) /\
  2 <= length texts <= 10.
Proof.
  intros _ Hsuccess Hid texts.
  assert (Hstore :
    polls (ProjectPolly.createPoll formData w).2
    = <[id := newPollRow "mock-user-id" formData]> (polls w) /\
    poll_options (ProjectPolly.createPoll formData w).2
    = (poll_options w ++ optionRows id texts)%list /\
    2 <= length texts <= 10).
  { revert Hsuccess Hid. unfold ProjectPolly.createPoll.
    destruct (negb (JS.truthy (JS.trim (title formData)))); [discriminate|].
    destruct (Nat.ltb (length (options formData)) 2); [discriminate|].
    destruct (Nat.ltb_spec 10 (length (options formData))) as [|Hcap];
      [discriminate|].
    fold texts.
    pose proof (List.filter_length_le
                  (fun option => JS.truthy (JS.trim option))
                  (options formData)) as Hle.
    destruct (Nat.ltb_spec
                (length (List.filter
                           (fun option => JS.truthy (JS.trim option))
                           (options formData))) 2) as [|Hfloor];
      [discriminate|].
    unfold bind, insertPoll, insertOptions, revalidatePath, ret.
    destruct (fault w (InsertPoll _)); [discriminate|].
    destruct (polls w !! uuids w (issued w)) eqn:Hfresh; [discriminate|].
    cbn [fst snd logged withTables fault polls poll_options].
    destruct (fault w (InsertOptions _)); [discriminate|].
    destruct (forallb _ _); [|discriminate].
    cbn [fst snd success pollId logged withTables polls poll_options].
    intros _ Hid. injection Hid as <-.
    split; [reflexivity|]. split; [reflexivity|].
    unfold texts. rewrite length_map. lia. }
  destruct Hstore as (Hpolls & Hrows & Hlen).
  destruct (optionRows_columns id texts) as (Htext & Horder & Hpoll).
  repeat split; try assumption; lia.
Qed.

(** Three options, one of them blank. *)
Lemma createPoll_stores_one_row_per_option_witness :
  poll_options
    (ProjectPolly.createPoll
       (Samples.pollData "Test Poll" [" Option 1"; "   "; "Option 2 "])
       (Samples.emptyStore Supabase.anonymous Samples.nothing)).2
  = [ {| poll_id := "poll-0"; text := "Option 1"; order_index := 0 |};
      {| poll_id := "poll-0"; text := "Option 2"; order_index := 1 |} ].
Proof.
  pose proof (createPoll_stores_one_row_per_option
                (Samples.pollData "Test Poll"
                   [" Option 1"; "   "; "Option 2 "])
                (Samples.emptyStore Supabase.anonymous Samples.nothing)
                "poll-0" eq_refl eq_refl eq_refl) as (_ & Hrows & _).
  rewrite Hrows. reflexivity.
Defined.

(** An input that fails a check of the action of projects/alx-polly is
    rejected before anything is sent. *)
Lemma projectPolly_createPoll_rejects
    (formData : CreatePollFormData) (w : World) :
  JS.truthy (JS.trim (title formData)) = false
  \/ length (List.filter (fun option => JS.truthy (JS.trim option))
                         (options formData)) < 2 ->
  (ProjectPolly.createPoll formData w).2 = w /\
  success (ProjectPolly.createPoll formData w).1 = false.
Proof.
  intros Hbad. unfold ProjectPolly.createPoll.
  destruct (JS.truthy (JS.trim (title formData))); cbn [negb];
    [|split; reflexivity].
  destruct Hbad as [Hbad|Hfew]; [discriminate Hbad|].
  destruct (Nat.ltb (length (options formData)) 2); [split; reflexivity|].
  destruct (Nat.ltb 10 (length (options formData))); [split; reflexivity|].
  destruct (Nat.ltb_spec
              (length (List.filter
                         (fun option => JS.truthy (JS.trim option))
                         (options formData))) 2); [split; reflexivity|lia].
Qed.

Lemma newPoll_createPoll_rejects
    (formData : CreatePollFormData) (w : World) :
  JS.truthy (JS.trim (title formData)) = false
  \/ length (List.filter (fun option => JS.truthy (JS.trim option))
                         (options formData)) < 2 ->
  (NewPoll.createPoll formData w).2 = w /\
  success (NewPoll.createPoll formData w).1 = false.
Proof.
  intros Hbad. unfold NewPoll.createPoll.
  destruct (JS.truthy (JS.trim (title formData))); cbn [negb];
    [|split; reflexivity].
  destruct Hbad as [Hbad|Hfew]; [discriminate Hbad|].
  destruct (Nat.ltb_spec
              (length (List.filter
                         (fun option => JS.truthy (JS.trim option))
                         (options formData))) 2); [split; reflexivity|lia].
Qed.

(** An input that passes the checks is sent: first the poll, and the
    option rows, when they are sent, carry the trimmed options. *)
Lemma projectPolly_createPoll_sends
    (formData : CreatePollFormData) (w : World) :
  JS.truthy (JS.trim (title formData)) = true ->
  length (options formData) <= 10 ->
  2 <= length (List.filter (fun option => JS.truthy (JS.trim option))
                           (options formData)) ->
  exists rest,
    log (ProjectPolly.createPoll formData w).2
    = (log w ++ InsertPoll (newPollRow "mock-user-id" formData) :: rest)%list
    /\
    (forall rows,
       In (InsertOptions rows) rest ->
       map text rows
       = map JS.trim (List.filter (fun option => JS.truthy (JS.trim option))
                                  (options formData))).
Proof.
  intros Htitle Hcap Hvalid. unfold ProjectPolly.createPoll.
  rewrite Htitle. cbn [negb].
  pose proof (List.filter_length_le
                (fun option => JS.truthy (JS.trim option))
                (options formData)) as Hle.
  destruct (Nat.ltb_spec (length (options formData)) 2); [lia|].
  destruct (Nat.ltb_spec 10 (length (options formData))); [lia|].
  destruct (Nat.ltb_spec
              (length (List.filter
                         (fun option => JS.truthy (JS.trim option))
                         (options formData))) 2); [lia|].
  unfold bind, insertPoll, insertOptions, revalidatePath, ret.
  destruct (fault w (InsertPoll _));
    [| destruct (polls w !! uuids w (issued w))];
    cbn [fst snd logged withTables log fault polls].
  - exists []. split; [reflexivity | intros rows []].
  - exists []. split; [reflexivity | intros rows []].
  - set (rows := optionRows _ _).
    assert (Htexts : map text rows
                     = map JS.trim
                         (List.filter
                            (fun option => JS.truthy (JS.trim option))
                            (options formData)))
      by apply optionRows_columns.
    destruct (fault w (InsertOptions rows)); [| destruct (forallb _ _)];
      cbn [fst snd logged withTables log].
    + exists [InsertOptions rows].
      split; [rewrite <- app_assoc; reflexivity|].
      intros rows' [[= <-]|[]]. exact Htexts.
    + exists [InsertOptions rows; RevalidatePath "/polls"].
      split; [rewrite <- !app_assoc; reflexivity|].
      intros rows' [[= <-]|[Hpath|[]]]; [exact Htexts | discriminate Hpath].
    + exists [InsertOptions rows].
      split; [rewrite <- app_assoc; reflexivity|].
      intros rows' [[= <-]|[]]. exact Htexts.
Qed.

Lemma newPoll_createPoll_sends
    (formData : CreatePollFormData) (w : World) :
  JS.truthy (JS.trim (title formData)) = true ->
  2 <= length (List.filter (fun option => JS.truthy (JS.trim option))
                           (options formData)) ->
  exists rest,
    log (NewPoll.createPoll formData w).2
    = (log w
       ++ CreatePollWithOptions
            (newPollRow "demo-user" formData)
            (map JS.trim
               (List.filter (fun option => JS.truthy (JS.trim option))
                            (options formData)))
          :: rest)%list.
Proof.
  intros Htitle Hvalid. unfold NewPoll.createPoll.
  rewrite Htitle. cbn [negb].
  destruct (Nat.ltb_spec
              (length (List.filter
                         (fun option => JS.truthy (JS.trim option))
                         (options formData))) 2); [lia|].
  unfold bind, createPollWithOptions, revalidatePath, ret.
  destruct (fault w (CreatePollWithOptions _ _));
    [| destruct (polls w !! uuids w (issued w))];
    cbn [fst snd logged withTables log].
  - exists []. reflexivity.
  - exists []. reflexivity.
  - exists [RevalidatePath "/polls"]. rewrite <- app_assoc. reflexivity.
Qed.

(** On an input of at most 10 options the two variants check alike and
    send the same data.  Either both reject the input before they send
    anything, or both send the poll first: with the same title,
    description and flags, under the creator 'mock-user-id' in one and
    'demo-user' in the other, and the options that the variant of
    New-poll hands to the remote procedure are the texts of the option
    rows that the variant of projects/alx-polly inserts. *)
Theorem createPoll_variants_agree_up_to_ten_options
    (formData : CreatePollFormData) (w : World) :
  length (options formData) <= 10 ->
  ((ProjectPolly.createPoll formData w).2 = w /\
   success (ProjectPolly.createPoll formData w).1 = false /\
   (NewPoll.createPoll formData w).2 = w /\
   success (NewPoll.createPoll formData w).1 = false)
  \/
  (exists rowP restP rowN texts restN,
     log (ProjectPolly.createPoll formData w).2
     = (log w ++ InsertPoll rowP :: restP)%list /\
     log (NewPoll.createPoll formData w).2
     = (log w ++ CreatePollWithOptions rowN texts :: restN)%list /\
     creator_id rowP = "mock-user-id" /\
     creator_id rowN = "demo-user" /\
     poll_title rowP = poll_title rowN /\
     poll_description rowP = poll_description rowN /\
     is_public rowP = is_public rowN /\
     allow_multiple_votes rowP = allow_multiple_votes rowN /\
     allow_anonymous_votes rowP = allow_anonymous_votes rowN /\
     (forall rows, In (InsertOptions rows) restP -> map text rows = texts)).
Proof.
  intros Hcap.
  destruct (JS.truthy (JS.trim (title formData))) eqn:Htitle.
  - destruct (Nat.lt_ge_cases
                (length (List.filter
                           (fun option => JS.truthy (JS.trim option))
                           (options formData))) 2) as [Hfew|Hvalid].
    + left.
      destruct (projectPolly_createPoll_rejects formData w (or_intror Hfew))
        as [HP1 HP2].
      destruct (newPoll_createPoll_rejects formData w (or_intror Hfew))
        as [HN1 HN2].
      repeat split; assumption.
    + right.
      destruct (projectPolly_createPoll_sends formData w Htitle Hcap Hvalid)
        as (restP & HlogP & Hrows).
      destruct (newPoll_createPoll_sends formData w Htitle Hvalid)
        as (restN & HlogN).
      exists (newPollRow "mock-user-id" formData), restP,
        (newPollRow "demo-user" formData),
        (map JS.trim
           (List.filter (fun option => JS.truthy (JS.trim option))
                        (options formData))), restN.
      split; [exact HlogP|]. split; [exact HlogN|].
      repeat split; try reflexivity. exact Hrows.
  - left.
    destruct (projectPolly_createPoll_rejects formData w
                (or_introl Htitle)) as [HP1 HP2].
    destruct (newPoll_createPoll_rejects formData w
                (or_introl Htitle)) as [HN1 HN2].
    repeat split; assumption.
Qed.

(** The test form: both variants send the poll 'Test Poll', and the
    remote procedure gets the two options. *)
Lemma createPoll_variants_agree_witness :
  exists rowP rowN,
    In (InsertPoll rowP)
       (log (ProjectPolly.createPoll
               (Samples.pollData "Test Poll" ["Option 1"; "Option 2"])
               (Samples.emptyStore Supabase.anonymous Samples.nothing)).2) /\
    In (CreatePollWithOptions rowN ["Option 1"; "Option 2"])
       (log (NewPoll.createPoll
               (Samples.pollData "Test Poll" ["Option 1"; "Option 2"])
               (Samples.emptyStore Supabase.anonymous Samples.nothing)).2) /\
    poll_title rowP = poll_title rowN.
Proof.
  destruct (createPoll_variants_agree_up_to_ten_options
              (Samples.pollData "Test Poll" ["Option 1"; "Option 2"])
              (Samples.emptyStore Supabase.anonymous Samples.nothing))
    as [(_ & Hfailed & _)
       |(rowP & restP & rowN & texts & restN & HlogP & HlogN & _ & _
         & Htitle & _)].
  - vm_compute. lia.
  - vm_compute in Hfailed. discriminate Hfailed.
  - exists rowP, rowN. rewrite HlogP.
    split; [cbn; left; reflexivity|].
    split; [|exact Htitle].
    assert (Hoptions : texts = ["Option 1"; "Option 2"]).
    { pose proof HlogN as Hsent. vm_compute in Hsent.
      inversion Hsent. reflexivity. }
    rewrite HlogN, Hoptions. cbn. left. reflexivity.
Defined.

End OptionRows.

(** *** The poll form *)

Section Form.

Import NewPollStore PollForm.

Lemma delete_beyond_the_end {A} (l : list A) (index : nat) :
  length l <= index -> delete index l = l.
Proof.
  revert index. induction l as [|x l IH]; intros [|index] Hge;
    cbn in *; try reflexivity; try lia.
  f_equal. apply IH. lia.
Qed.


(** Whatever the user does with the add, remove and option inputs, the
    form holds between 2 and 10 options. *)
Theorem form_holds_two_to_ten_options (options : list string) :
  reachable options -> 2 <= length options <= 10.
Proof.
  induction 1 as [|options _ IH|index options _ IH
                  |index value options _ IH Hindex].
  - cbn. lia.
  - unfold handleAddOption.
    destruct (Nat.ltb_spec (length options) 10); [|exact IH].
    rewrite length_app. cbn. lia.
  - unfold handleRemoveOption.
    destruct (Nat.ltb_spec 2 (length options)); [|exact IH].
    destruct (options !! index) as [o|] eqn:Hlookup.
    + rewrite length_delete by eauto. lia.
    + apply lookup_ge_None in Hlookup.
      rewrite delete_beyond_the_end by exact Hlookup. exact IH.
  - unfold handleOptionChange. rewrite length_insert. exact IH.
Qed.

(** Nine clicks on "add", then nine on "remove". *)
Lemma form_holds_two_to_ten_options_witness :
  2 <= length (Nat.iter 9 handleAddOption [""; ""]) <= 10 /\
  2 <= length (Nat.iter 9 (handleRemoveOption 0)
                 (Nat.iter 9 handleAddOption [""; ""])) <= 10.
Proof.
  split; apply form_holds_two_to_ten_options;
    cbn [Nat.iter nat_rect]; repeat apply reachable_remove;
    repeat apply reachable_add; apply reachable_initial.
Defined.





End Form.

(** *** Regular expressions: the matcher and the strings it accepts *)

Section Matcher.

Import RegExp.

Lemma append_empty_r (s : string) : s ++ "" = s.
Proof.
  induction s as [|a s IH]; [reflexivity|].
  change (String a (s ++ "") = String a s). rewrite IH. reflexivity.
Qed.

Lemma append_associative (s1 s2 s3 : string) :
  (s1 ++ s2) ++ s3 = s1 ++ (s2 ++ s3).
Proof.
  induction s1 as [|a s1 IH]; [reflexivity|].
  change (String a ((s1 ++ s2) ++ s3) = String a (s1 ++ (s2 ++ s3))).
  rewrite IH. reflexivity.
Qed.

Lemma append_is_empty (s1 s2 : string) :
  s1 ++ s2 = "" -> s1 = "" /\ s2 = "".
Proof.
  destruct s1 as [|a s1]; [intros H; split; [reflexivity | exact H]|].
  intros H. discriminate H.
Qed.

Lemma append_is_cons (s1 s2 : string) (a : ascii) (s : string) :
  s1 ++ s2 = String a s ->
  (s1 = "" /\ s2 = String a s) \/
  (exists rest, s1 = String a rest /\ s = rest ++ s2).
Proof.
  destruct s1 as [|b rest]; intros H.
  - left. split; [reflexivity | exact H].
  - change (String b (rest ++ s2) = String a s) in H.
    injection H as -> <-. right. exists rest. split; reflexivity.
Qed.

Lemma every_append (accepts : ascii -> bool) (s1 s2 : string) :
  every accepts (s1 ++ s2) = every accepts s1 && every accepts s2.
Proof.
  induction s1 as [|a s1 IH]; [reflexivity|].
  change (accepts a && every accepts (s1 ++ s2)
          = accepts a && every accepts s1 && every accepts s2).
  rewrite IH. apply andb_assoc.
Qed.

Lemma every_weaken (p q : ascii -> bool) (s : string) :
  (forall a, p a = true -> q a = true) ->
  every p s = true -> every q s = true.
Proof.
  intros Hpq. induction s as [|a s IH]; cbn; [reflexivity|].
  intros [Ha Hs]%andb_true_iff. rewrite (Hpq a Ha), (IH Hs). reflexivity.
Qed.

Lemma nullable_matches (r : RegExp) : nullable r = true <-> matches r "".
Proof.
  split.
  - induction r; cbn; intros H; try discriminate.
    + constructor.
    + apply andb_true_iff in H as [H1 H2].
      change "" with ("" ++ ""). constructor; auto.
    + apply orb_true_iff in H as [H|H];
        [apply matches_alt_l | apply matches_alt_r]; auto.
    + constructor.
  - intros H. remember "" as s eqn:Hs.
    induction H; cbn; try reflexivity; try discriminate.
    + apply append_is_empty in Hs as [-> ->].
      rewrite IHmatches1, IHmatches2; reflexivity.
    + rewrite IHmatches by exact Hs. reflexivity.
    + rewrite IHmatches by exact Hs. apply orb_true_r.
Qed.

Lemma matches_star_head (r : RegExp) (a : ascii) (s : string) :
  matches (Star r) (String a s) ->
  exists s1 s2,
    s = s1 ++ s2 /\ matches r (String a s1) /\ matches (Star r) s2.
Proof.
  intros H. remember (Star r) as r' eqn:Hr.
  remember (String a s) as t eqn:Ht.
  induction H; try discriminate.
  injection Hr as ->.
  apply append_is_cons in Ht as [[-> ->]|(rest & -> & ->)].
  - apply IHmatches2; reflexivity.
  - exists rest, s2. split; [reflexivity|]. split; assumption.
Qed.

Lemma derive_matches (r : RegExp) (a : ascii) (s : string) :
  matches (derive a r) s <-> matches r (String a s).
Proof.
  revert s. induction r as [| |accepts|r1 IH1 r2 IH2|r1 IH1 r2 IH2|r IH];
    intros s; cbn [derive].
  - split; intros H; inversion H.
  - split; intros H; inversion H.
  - destruct (accepts a) eqn:Ha; split; intros H; inversion H; subst.
    + constructor. exact Ha.
    + constructor.
    + congruence.
  - assert (Hleft : forall t,
              matches (Seq (derive a r1) r2) t ->
              matches (Seq r1 r2) (String a t)).
    { intros t H. inversion H; subst.
      change (String a (s1 ++ s2)) with (String a s1 ++ s2).
      constructor; [apply IH1|]; assumption. }
    assert (Hback : matches (Seq r1 r2) (String a s) ->
              (matches r1 "" /\ matches (derive a r2) s) \/
              matches (Seq (derive a r1) r2) s).
    { intros H. inversion H as [| |? ? s1 s2 H1 H2 Hr Hs| | | |]; subst.
      apply append_is_cons in Hs as [[-> ->]|(rest & -> & ->)].
      - left. split; [exact H1 | apply IH2, H2].
      - right. constructor; [apply IH1, H1 | exact H2]. }
    destruct (nullable r1) eqn:Hnull.
    + split.
      * intros H. inversion H; subst; [apply Hleft; assumption|].
        change (String a s) with ("" ++ String a s).
        constructor; [apply nullable_matches, Hnull | apply IH2; assumption].
      * intros H. apply Hback in H as [[_ H]|H];
          [apply matches_alt_r | apply matches_alt_l]; exact H.
    + split; [apply Hleft|].
      intros H. apply Hback in H as [[H _]|H]; [|exact H].
      apply nullable_matches in H. congruence.
  - split; intros H; inversion H; subst.
    + apply matches_alt_l, IH1. assumption.
    + apply matches_alt_r, IH2. assumption.
    + apply matches_alt_l, IH1. assumption.
    + apply matches_alt_r, IH2. assumption.
  - split.
    + intros H. inversion H; subst.
      change (String a (s1 ++ s2)) with (String a s1 ++ s2).
      constructor; [apply IH|]; assumption.
    + intros H. apply matches_star_head in H as (s1 & s2 & -> & H1 & H2).
      constructor; [apply IH, H1 | exact H2].
Qed.

(** The matcher decides membership in the language of the pattern. *)
Lemma test_matches (r : RegExp) (s : string) :
  test r s = true <-> matches r s.
Proof.
  revert r. induction s as [|a s IH]; intros r; cbn [test].
  - apply nullable_matches.
  - rewrite IH. apply derive_matches.
Qed.

Lemma matches_class_star (accepts : ascii -> bool) (s : string) :
  matches (Star (Class accepts)) s <-> every accepts s = true.
Proof.
  split.
  - intros H. remember (Star (Class accepts)) as r eqn:Hr.
    induction H; try discriminate; [reflexivity|].
    injection Hr as ->. inversion H; subst.
    rewrite every_append, IHmatches2 by reflexivity. cbn [every].
    match goal with Hacc : accepts _ = true |- _ => rewrite Hacc end.
    reflexivity.
  - induction s as [|a s IH]; cbn; intros H; [constructor|].
    apply andb_true_iff in H as [Ha Hs].
    change (String a s) with (String a "" ++ s).
    constructor; [constructor; exact Ha | apply IH, Hs].
Qed.

Lemma matches_class_plus (accepts : ascii -> bool) (s : string) :
  matches (Plus (Class accepts)) s <-> s <> "" /\ every accepts s = true.
Proof.
  unfold Plus. split.
  - intros H. inversion H as [| |? ? s1 s2 H1 H2 Hr Hs| | | |]; subst.
    inversion H1; subst. split; [discriminate|].
    apply matches_class_star in H2. rewrite every_append, H2. cbn [every].
    match goal with Hacc : accepts _ = true |- _ => rewrite Hacc end.
    reflexivity.
  - intros [Hne H]. destruct s as [|a s]; [contradiction|].
    cbn in H. apply andb_true_iff in H as [Ha Hs].
    change (String a s) with (String a "" ++ s).
    constructor; [constructor; exact Ha | apply matches_class_star, Hs].
Qed.

Lemma matches_char (c : ascii) (s : string) :
  matches (Class (Ascii.eqb c)) s <-> s = String c "".
Proof.
  split.
  - intros H. inversion H; subst.
    match goal with Heq : Ascii.eqb _ _ = true |- _ =>
      apply Ascii.eqb_eq in Heq; subst end.
    reflexivity.
  - intros ->. constructor. apply Ascii.eqb_refl.
Qed.

End Matcher.

(** *** The authentication actions *)

Section Authentication.

Import RegExp AuthActions.

(** The five parts of a match of the pattern. *)
Lemma emailRegex_parts (s : string) :
  matches emailRegex s ->
  exists local domain tld,
    s = local ++ "@" ++ domain ++ "." ++ tld /\
    matches (Plus (Class notSpaceOrAt)) local /\
    matches (Plus (Class notSpaceOrAt)) domain /\
    matches (Plus (Class notSpaceOrAt)) tld.
Proof.
  unfold emailRegex. intros H.
  inversion H as [| |? ? local s2 Hlocal H2 Hr Hs| | | |]; subst.
  inversion H2 as [| |? ? at_ s3 Hat H3 Hr Hs| | | |]; subst.
  inversion H3 as [| |? ? domain s4 Hdomain H4 Hr Hs| | | |]; subst.
  inversion H4 as [| |? ? dot tld Hdot Htld Hr Hs| | | |]; subst.
  apply matches_char in Hat, Hdot. subst.
  exists local, domain, tld. repeat split; assumption.
Qed.

(** Among the ASCII strings, the pattern of login and register accepts
    exactly the strings local@domain.tld whose three parts are non-empty
    and contain neither white space nor "@" (dots are allowed in each
    part). *)
Theorem emailRegex_accepts_local_at_domain_dot_tld (s : string) :
  JS.isASCII s = true ->
  (test emailRegex s = true <->
   exists local domain tld,
     s = local ++ "@" ++ domain ++ "." ++ tld /\
     addressPart local /\ addressPart domain /\ addressPart tld).
Proof.
  intros _. rewrite test_matches. split.
  - intros H.
    destruct (emailRegex_parts s H)
      as (local & domain & tld & -> & Hlocal & Hdomain & Htld).
    apply matches_class_plus in Hlocal, Hdomain, Htld.
    exists local, domain, tld. repeat split; tauto.
  - unfold emailRegex.
    intros (local & domain & tld & -> & Hlocal & Hdomain & Htld).
    apply matches_class_plus in Hlocal, Hdomain, Htld.
    constructor; [exact Hlocal|].
    change ("@" ++ domain ++ "." ++ tld)
      with (String "@" "" ++ (domain ++ "." ++ tld)).
    constructor; [apply matches_char; reflexivity|].
    constructor; [exact Hdomain|].
    change ("." ++ tld) with (String "." "" ++ tld).
    constructor; [apply matches_char; reflexivity | exact Htld].
Qed.

(** The address of the docstring of register. *)
Lemma emailRegex_accepts_witness :
  exists local domain tld,
    "john@example.com" = local ++ "@" ++ domain ++ "." ++ tld /\
    addressPart local /\ addressPart domain /\ addressPart tld.
Proof.
  apply (proj1 (emailRegex_accepts_local_at_domain_dot_tld
                  "john@example.com" eq_refl)).
  reflexivity.
Defined.

(** An address from the README of the actions, and one with a dot in the
    local part and a second-level domain. *)
Example emailRegex_examples :
  test emailRegex "john@example.com" = true /\
  test emailRegex "first.last@mail.example.org" = true /\
  test emailRegex "john@example" = false /\
  test emailRegex "john@@example.com" = false /\
  test emailRegex "john@.com" = false /\
  test emailRegex "john doe@example.com" = false.
Proof. repeat split; vm_compute; reflexivity. Qed.

Lemma accepted_address_has_no_space (s : string) :
  test emailRegex s = true ->
  s <> "" /\ every (fun a => negb (JS.isWhiteSpace a)) s = true.
Proof.
  intros H.
  apply test_matches, emailRegex_parts in H
    as (local & domain & tld & -> & Hlocal & Hdomain & Htld).
  apply matches_class_plus in Hlocal as [Hl1 Hl2].
  apply matches_class_plus in Hdomain as [_ Hd].
  apply matches_class_plus in Htld as [_ Ht].
  assert (Hweak : forall a, notSpaceOrAt a = true ->
                            negb (JS.isWhiteSpace a) = true).
  { intros a Ha. unfold notSpaceOrAt in Ha.
    apply andb_true_iff in Ha as [Ha _]. exact Ha. }
  split.
  - destruct local; [contradiction | discriminate].
  - rewrite !every_append.
    rewrite (every_weaken _ _ _ Hweak Hl2), (every_weaken _ _ _ Hweak Hd),
      (every_weaken _ _ _ Hweak Ht).
    reflexivity.
Qed.

Lemma answered (c : Call) (w : World) :
  (do error <- call c ;
   match error with
   | Some message => ret {| error := Some message |}
   | None => ret {| error := None |}
   end) w
  = ({| error := answer w c |},
     {| answer := answer w; calls := calls w ++ [c] |}).
Proof. unfold bind, call, ret. destruct (answer w c); reflexivity. Qed.

(** login passes the submitted address, an ASCII string, on in lower case
    and otherwise unchanged, with the password as it is, and returns what
    Supabase answers.  The trim in the action removes nothing: an address
    that the pattern accepts has no white space. *)
Theorem login_sends_the_address_in_lower_case
    (w : World) (address secret : string) :
  JS.isASCII address = true ->
  secret <> "" ->
  test emailRegex address = true ->
  JS.trim address = address /\
  login {| email := Str address; password := Str secret |} w =
  ({| error := answer w (SignInWithPassword (toLowerCase address) secret) |},
   {| answer := answer w;
      calls := calls w
               ++ [SignInWithPassword (toLowerCase address) secret] |}).
Proof.
  intros _ Hsecret Haccepted.
  destruct (accepted_address_has_no_space address Haccepted)
    as [Hfull Hnospace].
  assert (Htrim : JS.trim address = address)
    by (apply trim_no_space, Hnospace).
  split; [exact Htrim|].
  unfold login. cbn [email password truthy].
  apply truthy_nonempty in Hfull, Hsecret. rewrite Hfull, Hsecret.
  cbn [negb orb]. rewrite Haccepted. cbn [negb].
  rewrite Htrim. apply answered.
Qed.

Lemma login_sends_the_address_in_lower_case_witness :
  calls (login {| email := Str "User@Example.COM";
                  password := Str "securePassword123" |}
               MoreSamples.auth).2
  = [SignInWithPassword "user@example.com" "securePassword123"].
Proof.
  pose proof (login_sends_the_address_in_lower_case
                MoreSamples.auth "User@Example.COM" "securePassword123")
    as H.
  destruct H as [_ Hrun]; [reflexivity | discriminate | reflexivity |].
  rewrite Hrun. reflexivity.
Defined.

(** An address with white space anywhere, also at its ends, is rejected
    as 'Invalid email format' and Supabase is not called: the example of
    the docstring, '  User@Example.COM  ', is not normalised but refused. *)
Theorem login_rejects_an_address_with_white_space
    (w : World) (address secret : string) :
  secret <> "" ->
  address <> "" ->
  every (fun a => negb (JS.isWhiteSpace a)) address = false ->
  login {| email := Str address; password := Str secret |} w
  = ({| error := Some "Invalid email format" |}, w).
Proof.
  intros Hsecret Hfull Hspace.
  unfold login. cbn [email password truthy].
  apply truthy_nonempty in Hfull, Hsecret. rewrite Hfull, Hsecret.
  cbn [negb orb].
  destruct (test emailRegex address) eqn:Haccepted; [|reflexivity].
  apply accepted_address_has_no_space in Haccepted as [_ Hnone].
  congruence.
Qed.

Lemma login_rejects_an_address_with_white_space_witness :
  login {| email := Str "  User@Example.COM  ";
           password := Str "securePassword123" |} MoreSamples.auth
  = ({| error := Some "Invalid email format" |}, MoreSamples.auth).
Proof.
  apply login_rejects_an_address_with_white_space;
    [discriminate | discriminate | reflexivity].
Defined.

Lemma register_run (w : World) (address secret fullName : string) :
  test emailRegex address = true ->
  6 <= String.length secret ->
  fullName <> "" ->
  register {| name := Str fullName; registerEmail := Str address;
              registerPassword := Str secret |} w =
  ({| error := answer w (SignUp (toLowerCase address) secret
                                (JS.trim fullName)) |},
   {| answer := answer w;
      calls := calls w ++ [SignUp (toLowerCase address) secret
                                  (JS.trim fullName)] |}).
Proof.
  intros Haccepted Hlong Hfull.
  destruct (accepted_address_has_no_space address Haccepted) as [Ha Hnone].
  unfold register. cbn [name registerEmail registerPassword truthy].
  apply truthy_nonempty in Ha, Hfull. rewrite Ha, Hfull.
  assert (Hs : JS.truthy secret = true)
    by (destruct secret; [cbn in Hlong; lia | reflexivity]).
  rewrite Hs, Haccepted. cbn [negb orb].
  destruct (Nat.ltb_spec (String.length secret) 6); [lia|].
  rewrite (trim_no_space address Hnone). apply answered.
Qed.

(** On data whose strings are ASCII, register calls Supabase only with
    an address that matches the pattern, a password of at least 6
    characters and a non-empty name: it then signs up the address in
    lower case, the password unchanged and the name trimmed, and returns
    what Supabase answers.  In every other case it returns a message and
    calls nothing. *)
Theorem register_signs_up_only_checked_data
    (data : RegisterFormData) (w : World) :
  asciiValue (name data) = true ->
  asciiValue (registerEmail data) = true ->
  asciiValue (registerPassword data) = true ->
  ((register data w).2 = w /\ error (register data w).1 <> None)
  \/
  exists address secret fullName,
    data = {| name := Str fullName; registerEmail := Str address;
              registerPassword := Str secret |} /\
    test emailRegex address = true /\
    6 <= String.length secret /\
    fullName <> "" /\
    register data w =
    ({| error := answer w (SignUp (toLowerCase address) secret
                                  (JS.trim fullName)) |},
     {| answer := answer w;
        calls := calls w ++ [SignUp (toLowerCase address) secret
                                    (JS.trim fullName)] |}).
Proof.
  intros _ _ _.
  unfold register. destruct data as [n e p]. cbn [name registerEmail
                                                  registerPassword].
  destruct (truthy e) eqn:He; cbn [negb orb];
    [|left; split; [reflexivity | discriminate]].
  destruct (truthy p) eqn:Hp; cbn [negb orb];
    [|left; split; [reflexivity | discriminate]].
  destruct (truthy n) eqn:Hn; cbn [negb orb];
    [|left; split; [reflexivity | discriminate]].
  destruct e as [address|]; [|left; split; [reflexivity | discriminate]].
  destruct p as [secret|]; [|left; split; [reflexivity | discriminate]].
  destruct n as [fullName|]; [|left; split; [reflexivity | discriminate]].
  destruct (test emailRegex address) eqn:Haccepted; cbn [negb];
    [|left; split; [reflexivity | discriminate]].
  destruct (Nat.ltb_spec (String.length secret) 6) as [|Hlong];
    [left; split; [reflexivity | discriminate]|].
  right. exists address, secret, fullName.
  split; [reflexivity|]. split; [exact Haccepted|]. split; [exact Hlong|].
  assert (Hfull : fullName <> "") by apply truthy_nonempty, Hn.
  split; [exact Hfull|].
  pose proof (register_run w address secret fullName Haccepted Hlong Hfull)
    as Hrun.
  unfold register in Hrun.
  cbn [name registerEmail registerPassword] in Hrun.
  rewrite He, Hp, Hn, Haccepted in Hrun. cbn [negb orb] in Hrun.
  destruct (Nat.ltb_spec (String.length secret) 6); [lia | exact Hrun].
Qed.

(** The example of the docstring. *)
Lemma register_signs_up_only_checked_data_witness :
  calls (register {| name := Str "John Doe";
                     registerEmail := Str "john@example.com";
                     registerPassword := Str "strongPassword123" |}
                  MoreSamples.auth).2
  = [SignUp "john@example.com" "strongPassword123" "John Doe"].
Proof.
  destruct (register_signs_up_only_checked_data
              {| name := Str "John Doe";
                 registerEmail := Str "john@example.com";
                 registerPassword := Str "strongPassword123" |}
              MoreSamples.auth eq_refl eq_refl eq_refl)
    as [[Hsame _]|(address & secret & fullName & Hdata & _ & _ & _ & Hrun)].
  - vm_compute in Hsame. discriminate Hsame.
  - rewrite Hrun. injection Hdata as <- <- <-. reflexivity.
Defined.

(** A name of white space only passes the checks of register, and the
    user is signed up with the empty name.  The address and the password
    are ASCII strings. *)
Theorem register_signs_up_a_blank_name
    (w : World) (address secret fullName : string) :
  JS.isASCII address = true ->
  JS.isASCII secret = true ->
  test emailRegex address = true ->
  6 <= String.length secret ->
  fullName <> "" ->
  every JS.isWhiteSpace fullName = true ->
  calls (register {| name := Str fullName; registerEmail := Str address;
                     registerPassword := Str secret |} w).2
  = (calls w ++ [SignUp (toLowerCase address) secret ""])%list.
Proof.
  intros _ _ Haccepted Hlong Hfull Hblank.
  rewrite (register_run w address secret fullName Haccepted Hlong Hfull).
  cbn [snd calls]. apply trim_blank in Hblank. rewrite Hblank.
  reflexivity.
Qed.

Lemma register_signs_up_a_blank_name_witness :
  calls (register {| name := Str "   ";
                     registerEmail := Str "john@example.com";
                     registerPassword := Str "strongPassword123" |}
                  MoreSamples.auth).2
  = [SignUp "john@example.com" "strongPassword123" ""].
Proof.
  apply (register_signs_up_a_blank_name MoreSamples.auth
           "john@example.com" "strongPassword123" "   ");
    [reflexivity | reflexivity | reflexivity | vm_compute; lia
    | discriminate | reflexivity].
Defined.

End Authentication.

(** *** The items service *)

Section ItemsService.

Import Items.

Lemma createItem_numbered (name price : Json) (items : list Item) :
  map id items = seq 1 (length items) ->
  map id (createItem name price items).2
  = seq 1 (length (createItem name price items).2).
Proof.
  intros Hitems. unfold createItem.
  destruct name as [n| |]; try exact Hitems.
  destruct price as [x| |]; try exact Hitems.
  cbn [snd]. rewrite map_app, length_app, Hitems. cbn [map length id].
  rewrite seq_app. cbn [seq]. f_equal. f_equal. lia.
Qed.

Lemma createItems_numbered (bodies : list (Json * Json)) :
  forall items,
    map id items = seq 1 (length items) ->
    map id (createItems bodies items)
    = seq 1 (length (createItems bodies items)).
Proof.
  induction bodies as [|[name price] rest IH]; intros items Hitems.
  - exact Hitems.
  - cbn [createItems]. apply IH, createItem_numbered, Hitems.
Qed.

Lemma createItems_keeps (bodies : list (Json * Json)) :
  forall items,
    exists added, createItems bodies items = (items ++ added)%list /\
                  length added <= length bodies.
Proof.
  induction bodies as [|[name price] rest IH]; intros items.
  - exists []. rewrite app_nil_r. split; [reflexivity | cbn; lia].
  - cbn [createItems].
    destruct (IH (createItem name price items).2) as (added & -> & Hadded).
    unfold createItem.
    destruct name as [n| |];
      try (exists added; split; [reflexivity | cbn [length]; lia]).
    destruct price as [x| |];
      try (exists added; split; [reflexivity | cbn [length]; lia]).
    cbn [snd]. eexists (_ :: added). rewrite <- app_assoc.
    split; [reflexivity | cbn [length]; lia].
Qed.

(** Whatever is posted, the items listed carry the ids 1, 2, 3, ... in
    this order, so no two items share an id; the item 'Hello' stays the
    first one, and every request adds at most one item. *)
Theorem items_are_numbered_from_one (bodies : list (Json * Json)) :
  let items := listItems (createItems bodies initialItems) in
  map id items = seq 1 (length items) /\
  List.NoDup (map id items) /\
  (exists added, items = (initialItems ++ added)%list /\
                 length added <= length bodies).
Proof.
  cbn zeta. unfold listItems.
  assert (Hids : map id (createItems bodies initialItems)
                 = seq 1 (length (createItems bodies initialItems)))
    by (apply createItems_numbered; reflexivity).
  split; [exact Hids|]. split.
  - rewrite Hids. apply List.seq_NoDup.
  - apply createItems_keeps.
Qed.

(** A body without a string as name or without a number as price is
    answered by 400 and changes nothing, wherever it comes in a sequence
    of requests: the items are those of the sequence without it. *)
Theorem rejected_request_changes_nothing
    (before after : list (Json * Json)) (name price : Json)
    (items : list Item) :
  status (createItem name price (createItems before items)).1 = 400 ->
  createItems (before ++ (name, price) :: after) items
  = createItems (before ++ after) items.
Proof.
  revert items.
  induction before as [|[n p] rest IH]; intros items Hstatus.
  - cbn [app createItems] in *. revert Hstatus. unfold createItem.
    destruct name as [n| |]; try reflexivity.
    destruct price as [x| |]; try reflexivity.
    cbn. discriminate.
  - cbn [app createItems] in *. apply IH, Hstatus.
Qed.

Lemma rejected_request_changes_nothing_witness :
  map name
    (createItems [ (JsonString "Pen", JsonNumber (JS.Number 2));
                   (JsonString "Ink", JsonString "3");
                   (JsonString "Cap", JsonNumber (JS.Number 4)) ]
                 initialItems)
  = ["Hello"; "Pen"; "Cap"].
Proof.
  pose proof (rejected_request_changes_nothing
                [ (JsonString "Pen", JsonNumber (JS.Number 2)) ]
                [ (JsonString "Cap", JsonNumber (JS.Number 4)) ]
                (JsonString "Ink") (JsonString "3") initialItems
                eq_refl) as Hsame.
  cbn [app] in Hsame. rewrite Hsame. reflexivity.
Defined.

End ItemsService.

(** *** The browser client *)

Section Client.

Import BrowserClient.

Lemma trim_is_empty (s : string) :
  String.eqb (JS.trim s) "" = RegExp.every JS.isWhiteSpace s.
Proof.
  destruct (RegExp.every JS.isWhiteSpace s) eqn:Hs.
  - apply String.eqb_eq, trim_blank, Hs.
  - apply String.eqb_neq. intros Hempty.
    apply trim_blank in Hempty. congruence.
Qed.

(** With variables of ASCII characters, createClient hands the two to
    createBrowserClient exactly when both are set and each holds a
    character that is not white space; in every other case it throws the
    one error. *)
Theorem createClient_needs_both_variables (env : Env) (url key : string) :
  asciiEnv env = true ->
  (createClient env = inr (url, key) <->
   NEXT_PUBLIC_SUPABASE_URL env = Some url /\
   NEXT_PUBLIC_SUPABASE_ANON_KEY env = Some key /\
   RegExp.every JS.isWhiteSpace url = false /\
   RegExp.every JS.isWhiteSpace key = false) /\
  (forall message, createClient env = inl message -> message = missing).
Proof.
  intros _. split.
  2: { unfold createClient. intros message.
       destruct (NEXT_PUBLIC_SUPABASE_URL env),
         (NEXT_PUBLIC_SUPABASE_ANON_KEY env);
         try (intros [= <-]; reflexivity).
       destruct (_ || _); [intros [= <-]; reflexivity | discriminate]. }
  unfold createClient. destruct env as [[u|] [k|]];
    cbn [NEXT_PUBLIC_SUPABASE_URL NEXT_PUBLIC_SUPABASE_ANON_KEY];
    try (split; [discriminate | intros (Hu & Hk & _); discriminate]).
  rewrite !trim_is_empty.
  split.
  - destruct (RegExp.every JS.isWhiteSpace u) eqn:Hu;
      [rewrite orb_true_r; discriminate|].
    destruct (RegExp.every JS.isWhiteSpace k) eqn:Hk;
      [rewrite orb_true_r; discriminate|].
    destruct (negb (JS.truthy u) || negb (JS.truthy k)); [discriminate|].
    cbn [orb]. intros [= <- <-]. auto.
  - intros ([= ->] & [= ->] & Hu & Hk). rewrite Hu, Hk.
    destruct url; [discriminate Hu|]. destruct key; [discriminate Hk|].
    reflexivity.
Qed.

(** A key of blanks only. *)
Lemma createClient_needs_both_variables_witness :
  createClient {| NEXT_PUBLIC_SUPABASE_URL := Some "https://xyz.supabase.co";
                  NEXT_PUBLIC_SUPABASE_ANON_KEY := Some "   " |}
  = inl missing /\
  createClient {| NEXT_PUBLIC_SUPABASE_URL := Some "https://xyz.supabase.co";
                  NEXT_PUBLIC_SUPABASE_ANON_KEY := Some "anon-key" |}
  = inr ("https://xyz.supabase.co", "anon-key").
Proof.
  split.
  - destruct (createClient
                {| NEXT_PUBLIC_SUPABASE_URL := Some "https://xyz.supabase.co";
                   NEXT_PUBLIC_SUPABASE_ANON_KEY := Some "   " |})
      as [message|[url key]] eqn:Hrun.
    + f_equal.
      apply (proj2 (createClient_needs_both_variables
                      {| NEXT_PUBLIC_SUPABASE_URL :=
                           Some "https://xyz.supabase.co";
                         NEXT_PUBLIC_SUPABASE_ANON_KEY := Some "   " |}
                      "" "" eq_refl) message Hrun).
    + vm_compute in Hrun. discriminate Hrun.
  - apply (proj1 (createClient_needs_both_variables
                    {| NEXT_PUBLIC_SUPABASE_URL :=
                         Some "https://xyz.supabase.co";
                       NEXT_PUBLIC_SUPABASE_ANON_KEY := Some "anon-key" |}
                    "https://xyz.supabase.co" "anon-key" eq_refl)).
    repeat split; reflexivity.
Defined.

End Client.
